(** * qmi-firmware-update: selection parsing, device resolution and dispatch

    A shallow embedding of [src/qmi-firmware-update/qfu-main.c]:
    the two option callbacks [parse_busnum_devnum] and [parse_vid_pid],
    the resolution routine [select_path] and the body of [main].

    C strings are [string]s (a C string holds no NUL character), the
    unsigned integer types are [Z] with their ranges written out, a
    nullable pointer is an [option], and the file-scope [static]
    variables are gathered in records that are passed explicitly. *)

From Stdlib Require Import ZArith List String Ascii Bool Lia.
Import ListNotations.
Local Open Scope string_scope.
Local Open Scope list_scope.
Local Open Scope Z_scope.

(** ** The C library and GLib functions the program calls *)

Module CLib.

(** Widths of the C types on the platform the tool is built for (LP64
    Linux): [unsigned long] has 64 bits, [guint] 32 and [guint16] 16. *)
Definition ULONG_MAX    : Z := 18446744073709551615.
Definition G_MAXUINT    : Z := 4294967295.
Definition G_MAXUINT16  : Z := 65535.
Definition G_MAXINT     : Z := 2147483647.

Definition to_gulong  (x : Z) : Z := x mod (ULONG_MAX + 1).
Definition to_guint   (x : Z) : Z := x mod (G_MAXUINT + 1).
Definition to_guint16 (x : Z) : Z := x mod (G_MAXUINT16 + 1).

Definition code (c : ascii) : Z := Z.of_N (N_of_ascii c).

(** [isspace] on the characters of the "C" locale. *)
Definition isspace (c : ascii) : bool :=
  (code c =? 32) || ((9 <=? code c) && (code c <=? 13)).

(** The value [strtoul] gives a character as a digit: decimal digits,
    then letters of either case from ten on. *)
Definition digit_of (c : ascii) : option Z :=
  let n := code c in
  if (48 <=? n) && (n <=? 57) then Some (n - 48)
  else if (65 <=? n) && (n <=? 90) then Some (n - 55)
  else if (97 <=? n) && (n <=? 122) then Some (n - 87)
  else None.

Fixpoint skip_spaces (s : string) : string :=
  match s with
  | String c rest => if isspace c then skip_spaces rest else s
  | EmptyString => s
  end.

(** Exact value of the longest prefix of [s] made of digits of [base],
    continuing from [acc]. *)
Fixpoint strtoul_digits (base : Z) (s : string) (acc : Z) : Z :=
  match s with
  | String c rest =>
      match digit_of c with
      | Some d => if d <? base then strtoul_digits base rest (acc * base + d)
                  else acc
      | None => acc
      end
  | EmptyString => acc
  end.

Definition strip_sign (s : string) : bool * string :=
  match s with
  | String c rest =>
      if Ascii.eqb c "-" then (true, rest)
      else if Ascii.eqb c "+" then (false, rest)
      else (false, s)
  | EmptyString => (false, s)
  end.

Definition strip_0x (s : string) : string :=
  match s with
  | String c0 (String c1 rest) =>
      if Ascii.eqb c0 "0" && (Ascii.eqb c1 "x" || Ascii.eqb c1 "X")
      then rest else s
  | _ => s
  end.

(** [strtoul (s, NULL, base)] for the bases the program passes (10 and
    16): leading white space, an optional sign, for base 16 an optional
    [0x], then the digits.  No digits give 0; a value that does not fit
    gives [ULONG_MAX]; a minus sign negates in [unsigned long]. *)
Definition strtoul (s : string) (base : Z) : Z :=
  let (negative, s1) := strip_sign (skip_spaces s) in
  let s2 := if base =? 16 then strip_0x s1 else s1 in
  let i := strtoul_digits base s2 0 in
  if ULONG_MAX <? i then ULONG_MAX
  else if negative then to_gulong (- i) else i.

(** Characters of [s] from position [n] on ([s + n] in C). *)
Fixpoint advance (n : nat) (s : string) : string :=
  match n, s with
  | S n', String _ rest => advance n' rest
  | _, _ => s
  end.

(** Whether [s] starts with [needle]. *)
Fixpoint starts_with (needle s : string) : bool :=
  match needle, s with
  | EmptyString, _ => true
  | String a needle', String b s' => Ascii.eqb a b && starts_with needle' s'
  | String _ _, EmptyString => false
  end.

(** [strstr (haystack, needle)]: the text before the first occurrence
    of [needle] and the text from that occurrence on, [None] for a
    NULL result. *)
Fixpoint strstr (haystack needle : string) : option (string * string) :=
  if starts_with needle haystack then Some (EmptyString, haystack)
  else match haystack with
       | EmptyString => None
       | String c rest =>
           match strstr rest needle with
           | Some (before, found) => Some (String c before, found)
           | None => None
           end
       end.

(** The loop of [g_strsplit]: [while (--max_tokens && s)], cutting one
    token off [remainder] at each turn.  Returns the tokens cut and the
    last remainder. *)
Fixpoint g_strsplit_loop (fuel : nat) (remainder delimiter : string)
         (max_tokens : Z) (tokens : list string) : list string * string :=
  match fuel with
  | O => (tokens, remainder)
  | S fuel' =>
      let max_tokens := max_tokens - 1 in
      if max_tokens =? 0 then (tokens, remainder)
      else match strstr remainder delimiter with
           | None => (tokens, remainder)
           | Some (token, found) =>
               g_strsplit_loop fuel'
                               (advance (String.length delimiter) found)
                               delimiter max_tokens (tokens ++ [token])
           end
  end.

(** [g_strsplit (string, delimiter, max_tokens)], the vector without its
    NULL terminator.  The empty string splits into the empty vector. *)
Definition g_strsplit (str delimiter : string) (max_tokens : Z) : list string :=
  let max_tokens := if max_tokens <? 1 then G_MAXINT else max_tokens in
  let (tokens, remainder) :=
    g_strsplit_loop (S (String.length str)) str delimiter max_tokens [] in
  match str with
  | EmptyString => tokens
  | _ => tokens ++ [remainder]
  end.

End CLib.
Import CLib.


(** ** The program state *)

(** The "generic device selections" variables ([static guint busnum],
    [devnum]; [static guint16 vid], [pid]).  0 means not given. *)
Record Selection := mkSelection {
  busnum : Z;
  devnum : Z;
  vid    : Z;
  pid    : Z
}.

Definition set_busnum (v : Z) (g : Selection) : Selection :=
  mkSelection v (devnum g) (vid g) (pid g).
Definition set_devnum (v : Z) (g : Selection) : Selection :=
  mkSelection (busnum g) v (vid g) (pid g).
Definition set_vid (v : Z) (g : Selection) : Selection :=
  mkSelection (busnum g) (devnum g) v (pid g).
Definition set_pid (v : Z) (g : Selection) : Selection :=
  mkSelection (busnum g) (devnum g) (vid g) v.

(** Static storage starts zeroed. *)
Definition initial_selection : Selection := mkSelection 0 0 0 0.

(** The remaining option variables, as [g_option_context_parse] leaves
    them.  A [gchar *] or [gchar **] that is NULL is [None]. *)
Record Options := mkOptions {
  action_update_flag     : bool;
  device_str             : option string;
  firmware_version_str   : option string;
  config_version_str     : option string;
  carrier_str            : option string;
  device_open_proxy_flag : bool;
  device_open_mbim_flag  : bool;
  action_update_qdl_flag : bool;
  serial_str             : option string;
  action_verify_flag     : bool;
  image_strv             : option (list string);
  verbose_flag           : bool;
  silent_flag            : bool;
  version_flag           : bool;
  help_flag              : bool
}.

(** A call either returns or dies on a failed [g_assert]. *)
Inductive Outcome (A : Type) : Type :=
| Returned (a : A)
| Aborted.
Arguments Returned {A} a.
Arguments Aborted {A}.

(** What a [GOptionArgFunc] callback hands back: its [gboolean], the
    message put in [*error] if any, and the selection variables after
    the call. *)
Record CallbackReturn := mkReturn {
  result  : bool;
  error   : option string;
  globals : Selection
}.

(** ** The option callbacks *)

Definition non_null (strv : list string) (idx : nat) : bool :=
  match nth_error strv idx with Some _ => true | None => false end.

Definition field (strv : list string) (idx : Z) : string :=
  nth (Z.to_nat idx) strv EmptyString.

Definition out_of_range (aux limit : Z) : bool := (aux =? 0) || (limit <? aux).

Definition parse_busnum_devnum (value : string) (g : Selection)
  : Outcome CallbackReturn :=
  let strv := g_strsplit value ":" (-1) in
  if negb (non_null strv 0) then Aborted
  else
    let '(busnum_idx, devnum_idx) :=
      if non_null strv 1 then (0, 1) else (-1, 0) in
    if non_null strv 1 && non_null strv 2 then
      Returned (mkReturn false
                  (Some "invalid busnum-devnum string: too many fields") g)
    else
      let bus_step : Selection + string :=
        if negb (busnum_idx =? -1) then
          let aux := strtoul (field strv busnum_idx) 10 in
          if out_of_range aux G_MAXUINT
          then inr ("invalid bus number: " ++ field strv busnum_idx)%string
          else inl (set_busnum (to_guint aux) g)
        else inl g in
      match bus_step with
      | inr message => Returned (mkReturn false (Some message) g)
      | inl g1 =>
          let aux := strtoul (field strv devnum_idx) 10 in
          if out_of_range aux G_MAXUINT
          then Returned (mkReturn false
                 (Some ("invalid dev number: " ++ field strv devnum_idx)%string)
                 g1)
          else Returned (mkReturn true None (set_devnum (to_guint aux) g1))
      end.

Definition parse_vid_pid (value : string) (g : Selection)
  : Outcome CallbackReturn :=
  let strv := g_strsplit value ":" (-1) in
  if negb (non_null strv 0) then Aborted
  else
    let vid_idx := 0 in
    let pid_idx := if non_null strv 1 then 1 else -1 in
    if non_null strv 1 && non_null strv 2 then
      Returned (mkReturn false
                  (Some "invalid vid-pid string: too many fields") g)
    else
      let pid_step : Selection + string :=
        if negb (pid_idx =? -1) then
          let aux := strtoul (field strv pid_idx) 16 in
          if out_of_range aux G_MAXUINT16
          then inr ("invalid product id: " ++ field strv pid_idx)%string
          else inl (set_pid (to_guint16 (to_guint aux)) g)
        else inl g in
      match pid_step with
      | inr message => Returned (mkReturn false (Some message) g)
      | inl g1 =>
          let aux := strtoul (field strv vid_idx) 16 in
          if out_of_range aux G_MAXUINT16
          then Returned (mkReturn false
                 (Some ("invalid vendor id: " ++ field strv vid_idx)%string)
                 g1)
          else Returned (mkReturn true None (set_vid (to_guint16 aux) g1))
      end.

(** ** Effects

    Everything the program does to the outside world is recorded, in
    order, as a list of events: what it prints and which collaborator it
    calls with which arguments. *)

Inductive QfuUdevHelperDeviceType :=
| QFU_UDEV_HELPER_DEVICE_TYPE_TTY
| QFU_UDEV_HELPER_DEVICE_TYPE_CDC_WDM.

Inductive Event :=
| EvPrintErr (message : string)
| EvPrint (message : string)
| EvDebug (message : string)
| EvLogSetHandler (log_domain : option string)
| EvSetTracesEnabled (enabled : bool)
| EvFindByDeviceInfo (vid pid busnum devnum : Z)
| EvListDevices (type : QfuUdevHelperDeviceType) (sysfs_path : string)
| EvUpdateRun (images : list string) (device : string)
              (firmware_version config_version carrier : option string)
              (device_open_proxy device_open_mbim : bool)
| EvUpdateQdlRun (images : list string) (serial : string)
| EvVerifyRun (images : list string).

Module Trace.

Definition M (A : Type) : Type := (A * list Event)%type.

Definition ret {A} (a : A) : M A := (a, []).

Definition bind {A B} (m : M A) (k : A -> M B) : M B :=
  let (a, t1) := m in
  let (b, t2) := k a in
  (b, t1 ++ t2).

Definition emit (e : Event) : M unit := (tt, [e]).

Definition value {A} (m : M A) : A := fst m.
Definition trace {A} (m : M A) : list Event := snd m.

End Trace.
Import Trace.

Notation "x <- m ;; k" := (bind m (fun x => k))
  (at level 61, m at next level, right associativity).
Notation "m ;;; k" := (bind m (fun _ => k))
  (at level 61, right associativity).

Definition nl : string := String (ascii_of_nat 10) EmptyString.

Definition g_printerr (message : string) : M unit := emit (EvPrintErr message).
Definition g_print    (message : string) : M unit := emit (EvPrint message).
Definition g_debug    (message : string) : M unit := emit (EvDebug message).

Definition EXIT_SUCCESS : Z := 0.
Definition EXIT_FAILURE : Z := 1.

Definition PROGRAM_NAME : string := "qmi-firmware-update".

Definition is_set {A} (p : option A) : bool :=
  match p with Some _ => true | None => false end.

Definition nonzero (x : Z) : bool := negb (x =? 0).

(** What the program takes from the rest of the repository and from its
    build: qfu-udev-helpers, qfu-operation, config.h. *)
Class Environment := {
  (** [GFile] objects and the path [g_file_get_path] gives for one (NULL
      when it has none). *)
  GFile : Type;
  g_file_get_path : GFile -> option string;

  (** qfu-udev-helpers: the sysfs path found ([inl]) or the message of
      the error set ([inr]); and the device files below a sysfs path. *)
  find_by_device_info : Z -> Z -> Z -> Z -> string + string;
  list_devices : QfuUdevHelperDeviceType -> string -> list GFile;

  (** qfu-operation: the three workflows, each reporting success. *)
  update_run :
    list string -> string -> option string -> option string -> option string ->
    bool -> bool -> bool;
  update_qdl_run : list string -> string -> bool;
  verify_run : list string -> bool;

  (** [PACKAGE_VERSION] of config.h and the text
      [g_option_context_get_help] builds. *)
  PROGRAM_VERSION : string;
  help_text : string
}.

Section Program.

Context {env : Environment}.

Definition qfu_udev_helper_find_by_device_info (vid pid busnum devnum : Z)
  : M (string + string) :=
  emit (EvFindByDeviceInfo vid pid busnum devnum) ;;;
  ret (find_by_device_info vid pid busnum devnum).

Definition qfu_udev_helper_list_devices (type : QfuUdevHelperDeviceType)
           (sysfs_path : string) : M (list GFile) :=
  emit (EvListDevices type sysfs_path) ;;;
  ret (list_devices type sysfs_path).

Definition qfu_operation_update_run (images : list string) (device : string)
           (firmware_version config_version carrier : option string)
           (device_open_proxy device_open_mbim : bool) : M bool :=
  emit (EvUpdateRun images device firmware_version config_version carrier
                    device_open_proxy device_open_mbim) ;;;
  ret (update_run images device firmware_version config_version carrier
                  device_open_proxy device_open_mbim).

Definition qfu_operation_update_qdl_run (images : list string)
           (serial : string) : M bool :=
  emit (EvUpdateQdlRun images serial) ;;;
  ret (update_qdl_run images serial).

Definition qfu_operation_verify_run (images : list string) : M bool :=
  emit (EvVerifyRun images) ;;;
  ret (verify_run images).

Definition print_version : M unit :=
  g_print (nl ++ PROGRAM_NAME ++ " " ++ PROGRAM_VERSION ++ nl
           ++ "Copyright (C) 2016 Bjørn Mork" ++ nl
           ++ "Copyright (C) 2016 Zodiac Inflight Innovations" ++ nl
           ++ "Copyright (C) 2016 Aleksander Morgado" ++ nl
           ++ "License GPLv2+: GNU GPL version 2 or later <http://gnu.org/licenses/gpl-2.0.html>" ++ nl
           ++ "This is free software: you are free to change and redistribute it." ++ nl
           ++ "There is NO WARRANTY, to the extent permitted by law." ++ nl
           ++ nl)%string.

Definition print_help : M unit := g_print help_text.

(** *** [select_path] *)

Definition select_path (manual : option string)
           (type : QfuUdevHelperDeviceType) (g : Selection)
  : M (option string) :=
  if is_set manual && (nonzero (vid g) || nonzero (pid g)) then
    g_printerr ("error: cannot specify device path and vid:pid lookup" ++ nl)%string ;;;
    ret None
  else if is_set manual && (nonzero (busnum g) || nonzero (devnum g)) then
    g_printerr ("error: cannot specify device path and busnum:devnum lookup" ++ nl)%string ;;;
    ret None
  else if (nonzero (vid g) || nonzero (pid g))
          && (nonzero (busnum g) || nonzero (devnum g)) then
    g_printerr ("error: cannot specify busnum:devnum and vid:pid lookups" ++ nl)%string ;;;
    ret None
  else
    match manual with
    | Some path => ret (Some path)
    | None =>
        found <- qfu_udev_helper_find_by_device_info
                   (vid g) (pid g) (busnum g) (devnum g) ;;
        match found with
        | inr message =>
            g_printerr ("error: " ++ message ++ nl)%string ;;;
            ret None
        | inl sysfs_path =>
            list <- qfu_udev_helper_list_devices type sysfs_path ;;
            match list with
            | [] =>
                g_printerr ("error: no devices found in sysfs path: "
                            ++ sysfs_path ++ nl)%string ;;;
                ret None
            | data :: _ => ret (g_file_get_path data)
            end
        end
    end.

(** *** [main]

    [parse_error] is the message of the error when
    [g_option_context_parse] failed; [g] and [o] are the option
    variables as it left them. *)

Definition exit_status (result : bool) : Z :=
  if result then EXIT_SUCCESS else EXIT_FAILURE.

Definition main (parse_error : option string) (g : Selection) (o : Options)
  : M (Outcome Z) :=
  match parse_error with
  | Some message =>
      g_printerr ("error: couldn't parse option context: " ++ message ++ nl)%string ;;;
      ret (Returned (exit_status false))
  | None =>
      if version_flag o then
        print_version ;;;
        ret (Returned (exit_status true))
      else if help_flag o then
        print_help ;;;
        ret (Returned (exit_status true))
      else
        emit (EvLogSetHandler None) ;;;
        emit (EvLogSetHandler (Some "Qmi")) ;;;
        (if verbose_flag o then emit (EvSetTracesEnabled true) else ret tt) ;;;
        let n_actions :=
          to_guint (Z.b2z (action_verify_flag o)
                    + Z.b2z (action_update_flag o)
                    + Z.b2z (action_update_qdl_flag o)) in
        if n_actions =? 0 then
          g_printerr ("error: no actions specified" ++ nl)%string ;;;
          ret (Returned (exit_status false))
        else if 1 <? n_actions then
          g_printerr ("error: too many actions specified" ++ nl)%string ;;;
          ret (Returned (exit_status false))
        else
          match image_strv o with
          | None =>
              g_printerr ("error: no firmware images specified" ++ nl)%string ;;;
              ret (Returned (exit_status false))
          | Some images =>
              if action_update_flag o then
                path <- select_path (device_str o)
                                    QFU_UDEV_HELPER_DEVICE_TYPE_CDC_WDM g ;;
                match path with
                | None => ret (Returned (exit_status false))
                | Some path =>
                    g_debug ("using cdc-wdm device: " ++ path)%string ;;;
                    result <- qfu_operation_update_run
                                images path
                                (firmware_version_str o)
                                (config_version_str o)
                                (carrier_str o)
                                (device_open_proxy_flag o)
                                (device_open_mbim_flag o) ;;
                    ret (Returned (exit_status result))
                end
              else if action_update_qdl_flag o then
                path <- select_path (serial_str o)
                                    QFU_UDEV_HELPER_DEVICE_TYPE_TTY g ;;
                match path with
                | None => ret (Returned (exit_status false))
                | Some path =>
                    g_debug ("using tty device: " ++ path)%string ;;;
                    result <- qfu_operation_update_qdl_run images path ;;
                    ret (Returned (exit_status result))
                end
              else if action_verify_flag o then
                result <- qfu_operation_verify_run images ;;
                ret (Returned (exit_status result))
              else
                ret Aborted
          end
  end.

End Program.


(** ** Vocabulary of the specification *)

(** Observations on a trace: the lines sent to standard error, the
    calls to the enumeration collaborator, and the operations run. *)
Definition stderr_of (t : list Event) : list string :=
  flat_map (fun e => match e with EvPrintErr m => [m] | _ => [] end) t.

Definition is_enumeration (e : Event) : bool :=
  match e with
  | EvFindByDeviceInfo _ _ _ _ | EvListDevices _ _ => true
  | _ => false
  end.

Definition is_operation (e : Event) : bool :=
  match e with
  | EvUpdateRun _ _ _ _ _ _ _ | EvUpdateQdlRun _ _ | EvVerifyRun _ => true
  | _ => false
  end.

Definition enumeration_of (t : list Event) : list Event := filter is_enumeration t.
Definition operations_of (t : list Event) : list Event := filter is_operation t.

(** The logging set-up [main] performs before it looks at the actions. *)
Definition log_setup (o : Options) : list Event :=
  [EvLogSetHandler None; EvLogSetHandler (Some "Qmi")]
  ++ (if verbose_flag o then [EvSetTracesEnabled true] else []).

(** How many of the three action flags are given. *)
Definition action_count (o : Options) : Z :=
  Z.b2z (action_verify_flag o) + Z.b2z (action_update_flag o)
  + Z.b2z (action_update_qdl_flag o).

(** A callback reports a parse error: it returns FALSE with a message. *)
Definition is_parse_error (r : Outcome CallbackReturn) : bool :=
  match r with
  | Returned r => negb (result r) && is_set (error r)
  | Aborted => false
  end.

(** Numerals as the specification reads them: a non-empty string of
    digits, worth the sum of its digits times the powers of the base. *)
Definition decimal_digit (c : ascii) : option Z :=
  if (48 <=? code c) && (code c <=? 57) then Some (code c - 48) else None.

Definition hex_digit (c : ascii) : option Z :=
  if (48 <=? code c) && (code c <=? 57) then Some (code c - 48)
  else if (65 <=? code c) && (code c <=? 70) then Some (code c - 65 + 10)
  else if (97 <=? code c) && (code c <=? 102) then Some (code c - 97 + 10)
  else None.

Fixpoint numeral_digits (digit : ascii -> option Z) (s : string)
  : option (list Z) :=
  match s with
  | EmptyString => Some []
  | String c rest =>
      match digit c, numeral_digits digit rest with
      | Some d, Some ds => Some (d :: ds)
      | _, _ => None
      end
  end.

Fixpoint positional_value (base : Z) (ds : list Z) : Z :=
  match ds with
  | [] => 0
  | d :: rest => d * base ^ Z.of_nat (List.length rest) + positional_value base rest
  end.

Definition numeral_value (digit : ascii -> option Z) (base : Z) (s : string)
  : option Z :=
  match s with
  | EmptyString => None
  | _ => option_map (positional_value base) (numeral_digits digit s)
  end.

Definition decimal_value : string -> option Z := numeral_value decimal_digit 10.
Definition hex_value     : string -> option Z := numeral_value hex_digit 16.

(** The three actions, and the runs of an action: those that get to the
    actions (neither [--version] nor [--help] given) with the flag of
    that action as the only action flag. *)
Inductive Action := Update | UpdateQdl | Verify.

Definition runs_action (o : Options) (a : Action) : bool :=
  negb (version_flag o) && negb (help_flag o)
  && Bool.eqb (action_update_flag o)
              (match a with Update => true | _ => false end)
  && Bool.eqb (action_update_qdl_flag o)
              (match a with UpdateQdl => true | _ => false end)
  && Bool.eqb (action_verify_flag o)
              (match a with Verify => true | _ => false end).

(** The option variables when no option at all is given. *)
Definition initial_options : Options :=
  mkOptions false None None None None false false false None false None
            false false false false.

(** A sample environment: one modem, vendor 0x1199, at sysfs path
    [/sys/bus/usb/devices/1-2], with one cdc-wdm port and no tty; every
    operation succeeds. *)
Module Sample.

Definition lookup (vid pid busnum devnum : Z) : string + string :=
  if (vid =? 4505) || (busnum =? 1)
  then inl "/sys/bus/usb/devices/1-2"
  else inr "device not found".

Definition devices (type : QfuUdevHelperDeviceType) (sysfs_path : string)
  : list string :=
  match type with
  | QFU_UDEV_HELPER_DEVICE_TYPE_CDC_WDM => ["/dev/cdc-wdm0"]
  | QFU_UDEV_HELPER_DEVICE_TYPE_TTY => []
  end.

Definition environment : Environment := {|
  GFile := string;
  g_file_get_path := Some;
  find_by_device_info := lookup;
  list_devices := devices;
  update_run := fun _ _ _ _ _ _ _ => true;
  update_qdl_run := fun _ _ => true;
  verify_run := fun _ => true;
  PROGRAM_VERSION := "1.16.0";
  help_text := "Usage:"
|}.

Definition resolve := select_path (env := environment).
Definition run := main (env := environment).

End Sample.

(** Whether character [c] occurs in [s]. *)
Fixpoint contains (c : ascii) (s : string) : bool :=
  match s with
  | EmptyString => false
  | String c' rest => Ascii.eqb c' c || contains c rest
  end.

(** ** Logging output *)

(** [GLogLevelFlags] of glib's gmessages.h. *)
Definition G_LOG_FLAG_RECURSION : Z := 1.
Definition G_LOG_FLAG_FATAL     : Z := 2.
Definition G_LOG_LEVEL_ERROR    : Z := 4.
Definition G_LOG_LEVEL_CRITICAL : Z := 8.
Definition G_LOG_LEVEL_WARNING  : Z := 16.
Definition G_LOG_LEVEL_MESSAGE  : Z := 32.
Definition G_LOG_LEVEL_INFO     : Z := 64.
Definition G_LOG_LEVEL_DEBUG    : Z := 128.

(** [log_handler].  [time_str] is what [strftime] wrote for the current
    local time; a [g_fprintf] to stderr is an [EvPrintErr], one to stdout
    an [EvPrint]. *)
Definition log_handler (o : Options) (time_str : string)
           (log_domain : option string) (log_level : Z) (message : string)
  : M unit :=
  if silent_flag o then ret tt
  else
    let '(log_level_str, err) :=
      if log_level =? G_LOG_LEVEL_WARNING then ("-Warning **", true)
      else if (log_level =? G_LOG_LEVEL_CRITICAL)
              || (log_level =? G_LOG_FLAG_FATAL)
              || (log_level =? G_LOG_LEVEL_ERROR) then ("-Error **", true)
      else if log_level =? G_LOG_LEVEL_DEBUG then ("[Debug]", false)
      else ("", false) in
    if negb (verbose_flag o) && negb err then ret tt
    else
      let line := ("[" ++ time_str ++ "] " ++ log_level_str ++ " "
                   ++ message ++ nl)%string in
      if err then emit (EvPrintErr line) else emit (EvPrint line).

(** ** Further vocabulary *)

(** The levels [log_handler] treats as errors. *)
Definition is_error_level (log_level : Z) : bool :=
  existsb (Z.eqb log_level)
          [G_LOG_LEVEL_WARNING; G_LOG_LEVEL_CRITICAL; G_LOG_FLAG_FATAL;
           G_LOG_LEVEL_ERROR].

Definition stdout_of (t : list Event) : list string :=
  flat_map (fun e => match e with EvPrint m => [m] | _ => [] end) t.

(** Number of occurrences of [c] in [s]. *)
Fixpoint count_char (c : ascii) (s : string) : nat :=
  match s with
  | EmptyString => O
  | String c' rest => ((if Ascii.eqb c' c then 1 else 0) + count_char c rest)%nat
  end.

(** A string of white space only. *)
Fixpoint all_spaces (s : string) : bool :=
  match s with
  | EmptyString => true
  | String c rest => isspace c && all_spaces rest
  end.

(** Whether [t] begins with a digit in the sense of [digit]. *)
Definition begins_with_digit (digit : ascii -> option Z) (t : string) : bool :=
  match t with
  | String c _ => is_set (digit c)
  | EmptyString => false
  end.

(** The selection variables hold values of their C types. *)
Definition within_types (g : Selection) : Prop :=
  0 <= busnum g <= G_MAXUINT /\ 0 <= devnum g <= G_MAXUINT
  /\ 0 <= vid g <= G_MAXUINT16 /\ 0 <= pid g <= G_MAXUINT16.

(** Whether one of the two kinds of lookup criteria is given. *)
Definition vid_pid_given (g : Selection) : bool := nonzero (vid g) || nonzero (pid g).
Definition busnum_devnum_given (g : Selection) : bool :=
  nonzero (busnum g) || nonzero (devnum g).



Definition set_device_str (p : option string) (o : Options) : Options :=
  mkOptions (action_update_flag o) p (firmware_version_str o)
            (config_version_str o) (carrier_str o) (device_open_proxy_flag o)
            (device_open_mbim_flag o) (action_update_qdl_flag o) (serial_str o)
            (action_verify_flag o) (image_strv o) (verbose_flag o)
            (silent_flag o) (version_flag o) (help_flag o).

Definition set_serial_str (p : option string) (o : Options) : Options :=
  mkOptions (action_update_flag o) (device_str o) (firmware_version_str o)
            (config_version_str o) (carrier_str o) (device_open_proxy_flag o)
            (device_open_mbim_flag o) (action_update_qdl_flag o) p
            (action_verify_flag o) (image_strv o) (verbose_flag o)
            (silent_flag o) (version_flag o) (help_flag o).

(** What the operation recorded by an event reported, in the
    environment at hand. *)
Definition operation_result {env : Environment} (e : Event) : option bool :=
  match e with
  | EvUpdateRun images device firmware_version config_version carrier
                device_open_proxy device_open_mbim =>
      Some (update_run images device firmware_version config_version carrier
                       device_open_proxy device_open_mbim)
  | EvUpdateQdlRun images serial => Some (update_qdl_run images serial)
  | EvVerifyRun images => Some (verify_run images)
  | _ => None
  end.

(** An environment in which the first cdc-wdm device has no path and the
    operations fail. *)
Module Pathless.

Definition environment : Environment := {|
  GFile := unit;
  g_file_get_path := fun _ => None;
  find_by_device_info := fun _ _ _ _ => inl "/sys/bus/usb/devices/1-2";
  list_devices := fun _ _ => [tt];
  update_run := fun _ _ _ _ _ _ _ => false;
  update_qdl_run := fun _ _ => false;
  verify_run := fun _ => false;
  PROGRAM_VERSION := "1.16.0";
  help_text := "Usage:"
|}.

End Pathless.


(** * Properties *)

(** ** The library functions on examples *)

Example strtoul_ex1 : strtoul "  +42abc" 10 = 42.
Proof. reflexivity. Qed.
Example strtoul_ex2 : strtoul "0x1199" 16 = 4505.
Proof. reflexivity. Qed.
Example strtoul_ex3 : strtoul "99999999999999999999999" 10 = ULONG_MAX.
Proof. reflexivity. Qed.
Example strtoul_ex4 : strtoul "-1" 10 = ULONG_MAX.
Proof. reflexivity. Qed.
Example g_strsplit_ex1 : g_strsplit "1:2:3" ":" (-1) = ["1"; "2"; "3"].
Proof. reflexivity. Qed.
Example g_strsplit_ex2 : g_strsplit "" ":" (-1) = [].
Proof. reflexivity. Qed.
Example g_strsplit_ex3 : g_strsplit ":" ":" (-1) = [""; ""].
Proof. reflexivity. Qed.
Example g_strsplit_ex4 : g_strsplit "a::b:" ":" (-1) = ["a"; ""; "b"; ""].
Proof. reflexivity. Qed.
Example decimal_value_ex : decimal_value "0042" = Some 42.
Proof. reflexivity. Qed.
Example hex_value_ex : hex_value "aBcD" = Some 43981.
Proof. reflexivity. Qed.

Example parse_busnum_devnum_ex1 :
  parse_busnum_devnum "1:2" initial_selection
  = Returned (mkReturn true None (mkSelection 1 2 0 0)).
Proof. reflexivity. Qed.
Example parse_busnum_devnum_ex2 :
  parse_busnum_devnum "" initial_selection = Aborted.
Proof. reflexivity. Qed.
Example parse_vid_pid_ex1 :
  parse_vid_pid "1199:9071" initial_selection
  = Returned (mkReturn true None (mkSelection 0 0 4505 36977)).
Proof. reflexivity. Qed.

(** ** [strtoul] on numerals *)

Lemma decimal_digit_of (c : ascii) (d : Z) :
  decimal_digit c = Some d -> digit_of c = Some d /\ 0 <= d < 10.
Proof.
  unfold decimal_digit, digit_of.
  generalize (code c); intros n.
  destruct (48 <=? n) eqn:H1, (n <=? 57) eqn:H2; simpl; try discriminate.
  intros [= <-]. apply Z.leb_le in H1, H2. split; [reflexivity | lia].
Qed.

Lemma hex_digit_of (c : ascii) (d : Z) :
  hex_digit c = Some d -> digit_of c = Some d /\ 0 <= d < 16.
Proof.
  unfold hex_digit, digit_of.
  generalize (code c); intros n.
  destruct (48 <=? n) eqn:H1, (n <=? 57) eqn:H2; simpl.
  1: { intros [= <-]. apply Z.leb_le in H1, H2. split; [reflexivity | lia]. }
  all: destruct (65 <=? n) eqn:H3, (n <=? 70) eqn:H4; simpl.
  all: destruct (n <=? 90) eqn:H5; simpl.
  all: destruct (97 <=? n) eqn:H6, (n <=? 102) eqn:H7; simpl.
  all: destruct (n <=? 122) eqn:H8; simpl.
  all: try discriminate.
  all: intros [= <-].
  all: repeat match goal with
         | H : (_ <=? _) = true |- _ => apply Z.leb_le in H
         | H : (_ <=? _) = false |- _ => apply Z.leb_gt in H
         end.
  all: try lia.
  all: split; [f_equal; lia | lia].
Qed.

Section Numerals.

Variable digit : ascii -> option Z.
Variable base : Z.
Hypothesis base_pos : 1 < base.
Hypothesis digit_ok :
  forall c d, digit c = Some d -> digit_of c = Some d /\ 0 <= d < base.

Lemma positional_value_nonneg (s : string) (ds : list Z) :
  numeral_digits digit s = Some ds -> 0 <= positional_value base ds.
Proof.
  revert ds. induction s as [|c rest IH]; simpl; intros ds H.
  - injection H as <-. simpl. lia.
  - destruct (digit c) as [d|] eqn:Hd; try discriminate.
    destruct (numeral_digits digit rest) as [ds'|]; try discriminate.
    injection H as <-. simpl.
    specialize (IH ds' eq_refl).
    destruct (digit_ok _ _ Hd) as [_ Hr].
    assert (0 <= base ^ Z.of_nat (List.length ds')) by (apply Z.pow_nonneg; lia).
    nia.
Qed.

Lemma strtoul_digits_numeral (s : string) (ds : list Z) (acc : Z) :
  numeral_digits digit s = Some ds ->
  strtoul_digits base s acc
  = acc * base ^ Z.of_nat (List.length ds) + positional_value base ds.
Proof.
  revert ds acc. induction s as [|c rest IH]; simpl; intros ds acc H.
  - injection H as <-. simpl. lia.
  - destruct (digit c) as [d|] eqn:Hd; try discriminate.
    destruct (numeral_digits digit rest) as [ds'|]; try discriminate.
    injection H as <-.
    destruct (digit_ok _ _ Hd) as [-> Hr].
    replace (d <? base) with true by (symmetry; apply Z.ltb_lt; lia).
    rewrite (IH ds' _ eq_refl).
    cbn [List.length positional_value].
    rewrite Nat2Z.inj_succ, Z.pow_succ_r by lia.
    ring.
Qed.

Lemma numeral_value_digits (s : string) (n : Z) :
  numeral_value digit base s = Some n ->
  exists c rest ds,
    s = String c rest /\ numeral_digits digit s = Some ds /\
    n = positional_value base ds /\ digit c <> None.
Proof.
  unfold numeral_value. destruct s as [|c rest]; try discriminate.
  destruct (numeral_digits digit (String c rest)) as [ds|] eqn:H;
    try discriminate.
  intros [= <-]. exists c, rest, ds. repeat split; try assumption.
  simpl in H. destruct (digit c); [discriminate | discriminate H].
Qed.

End Numerals.

Lemma decimal_digit_hex (c : ascii) (d : Z) :
  decimal_digit c = Some d -> hex_digit c = Some d.
Proof.
  unfold decimal_digit, hex_digit.
  destruct ((48 <=? code c) && (code c <=? 57)); [trivial | discriminate].
Qed.

(** A hexadecimal digit is no white space, sign, colon or [x]. *)
Lemma hex_digit_plain (c : ascii) :
  hex_digit c <> None ->
  isspace c = false /\ Ascii.eqb c "-" = false /\ Ascii.eqb c "+" = false
  /\ Ascii.eqb c ":" = false /\ Ascii.eqb c "x" = false
  /\ Ascii.eqb c "X" = false.
Proof.
  intros H.
  assert (Hs : isspace c = false).
  { revert H. unfold hex_digit, isspace. generalize (code c); intros n H.
    destruct (n =? 32) eqn:E1; [apply Z.eqb_eq in E1; subst; elim H; reflexivity|].
    destruct (9 <=? n) eqn:E2, (n <=? 13) eqn:E3; try reflexivity.
    apply Z.leb_le in E2, E3. exfalso. apply H.
    replace ((48 <=? n) && (n <=? 57)) with false
      by (symmetry; apply andb_false_iff; left; apply Z.leb_gt; lia).
    replace ((65 <=? n) && (n <=? 70)) with false
      by (symmetry; apply andb_false_iff; left; apply Z.leb_gt; lia).
    replace ((97 <=? n) && (n <=? 102)) with false
      by (symmetry; apply andb_false_iff; left; apply Z.leb_gt; lia).
    reflexivity. }
  split; [exact Hs|].
  repeat split.
  all: match goal with
       | |- Ascii.eqb ?x ?k = false =>
           destruct (Ascii.eqb_spec x k) as [->|]; [elim H; reflexivity | reflexivity]
       end.
Qed.

Lemma numeral_digits_head (digit : ascii -> option Z) (c : ascii)
      (rest : string) (ds : list Z) :
  numeral_digits digit (String c rest) = Some ds ->
  digit c <> None /\ exists ds', numeral_digits digit rest = Some ds'.
Proof.
  simpl. destruct (digit c); [|discriminate].
  destruct (numeral_digits digit rest) as [ds'|]; [|discriminate].
  intros _. split; [discriminate | exists ds'; reflexivity].
Qed.

Lemma numeral_digits_weaken (digit digit' : ascii -> option Z) :
  (forall c d, digit c = Some d -> digit' c = Some d) ->
  forall s ds, numeral_digits digit s = Some ds ->
               numeral_digits digit' s = Some ds.
Proof.
  intros Hw. induction s as [|c rest IH]; simpl; intros ds H; [exact H|].
  destruct (digit c) as [d|] eqn:Hd; [|discriminate].
  destruct (numeral_digits digit rest) as [ds'|]; [|discriminate].
  rewrite (Hw _ _ Hd), (IH _ eq_refl). exact H.
Qed.

Lemma hex_numeral_no_colon (s : string) (ds : list Z) :
  numeral_digits hex_digit s = Some ds -> contains ":" s = false.
Proof.
  revert ds. induction s as [|c rest IH]; intros ds H; [reflexivity|].
  destruct (numeral_digits_head _ _ _ _ H) as [Hc [ds' Hr]].
  simpl. destruct (hex_digit_plain c Hc) as (_ & _ & _ & -> & _).
  simpl. exact (IH _ Hr).
Qed.

Lemma strip_0x_hex_numeral (s : string) (ds : list Z) :
  numeral_digits hex_digit s = Some ds -> strip_0x s = s.
Proof.
  intros H. destruct s as [|c0 [|c1 rest]]; try reflexivity.
  destruct (numeral_digits_head _ _ _ _ H) as [_ [ds' Hr]].
  destruct (numeral_digits_head _ _ _ _ Hr) as [Hc1 _].
  destruct (hex_digit_plain c1 Hc1) as (_ & _ & _ & _ & Hx & HX).
  unfold strip_0x. rewrite Hx, HX, andb_false_r. reflexivity.
Qed.

(** On a hexadecimal numeral [strtoul] finds nothing to skip. *)
Lemma strtoul_hex_numeral_digits (s : string) (ds : list Z) (base : Z) :
  s <> EmptyString ->
  numeral_digits hex_digit s = Some ds ->
  strtoul s base
  = let i := strtoul_digits base s 0 in
    if ULONG_MAX <? i then ULONG_MAX else i.
Proof.
  intros Hne H. destruct s as [|c rest]; [congruence|].
  destruct (numeral_digits_head _ _ _ _ H) as [Hc _].
  destruct (hex_digit_plain c Hc) as (Hs & Hm & Hp & _).
  unfold strtoul. cbn [skip_spaces]. rewrite Hs.
  cbn [strip_sign]. rewrite Hm, Hp.
  rewrite (strip_0x_hex_numeral _ _ H).
  destruct (base =? 16); reflexivity.
Qed.

Lemma strtoul_decimal (s : string) (n : Z) :
  decimal_value s = Some n -> n <= ULONG_MAX -> strtoul s 10 = n.
Proof.
  intros H Hn.
  destruct (numeral_value_digits _ _ _ _ H) as (c & rest & ds & -> & Hd & -> & _).
  rewrite (strtoul_hex_numeral_digits _ ds 10); try discriminate.
  - cbv zeta.
    rewrite (strtoul_digits_numeral decimal_digit 10 decimal_digit_of _ _ 0 Hd).
    simpl (0 * _ + _).
    destruct (Z.ltb_spec ULONG_MAX (positional_value 10 ds)); [lia | reflexivity].
  - exact (numeral_digits_weaken _ _ decimal_digit_hex _ _ Hd).
Qed.

Lemma strtoul_hex (s : string) (n : Z) :
  hex_value s = Some n -> n <= ULONG_MAX -> strtoul s 16 = n.
Proof.
  intros H Hn.
  destruct (numeral_value_digits _ _ _ _ H) as (c & rest & ds & -> & Hd & -> & _).
  rewrite (strtoul_hex_numeral_digits _ ds 16); try discriminate; [|exact Hd].
  cbv zeta.
  rewrite (strtoul_digits_numeral hex_digit 16 hex_digit_of _ _ 0 Hd).
  simpl (0 * _ + _).
  destruct (Z.ltb_spec ULONG_MAX (positional_value 16 ds)); [lia | reflexivity].
Qed.

(** ** [g_strsplit] *)

Lemma length_append (s1 s2 : string) :
  String.length (s1 ++ s2) = (String.length s1 + String.length s2)%nat.
Proof. induction s1 as [|c s1 IH]; simpl; [reflexivity | now rewrite IH]. Qed.

Lemma advance_length (n : nat) (s : string) :
  String.length (advance n s) = (String.length s - n)%nat.
Proof.
  revert s. induction n as [|n IH]; intros [|c s]; simpl; try reflexivity.
  apply IH.
Qed.

Lemma starts_with_length (s1 s2 : string) :
  starts_with s1 s2 = true -> (String.length s1 <= String.length s2)%nat.
Proof.
  revert s2. induction s1 as [|a s1 IH]; intros [|b s2]; simpl; intros H;
    try lia; try discriminate.
  apply andb_true_iff in H as [_ H]. apply IH in H. lia.
Qed.

(** What [strstr] finds is a tail of the haystack that starts with the
    needle. *)
Lemma strstr_found (haystack needle before found : string) :
  strstr haystack needle = Some (before, found) ->
  haystack = (before ++ found)%string /\ starts_with needle found = true.
Proof.
  revert before found.
  induction haystack as [|c rest IH]; intros before found; cbn [strstr].
  - destruct needle; simpl; [|discriminate]. intros [= <- <-]. split; reflexivity.
  - destruct (starts_with needle (String c rest)) eqn:Hp.
    + intros [= <- <-]. split; [reflexivity | exact Hp].
    + destruct (strstr rest needle) as [[b f]|]; [|discriminate].
      intros [= <- <-]. destruct (IH _ _ eq_refl) as [-> Hf].
      split; [reflexivity | exact Hf].
Qed.

(** Each turn of the loop shortens the remainder, ... *)
Lemma strstr_advance_shorter (remainder delimiter token found : string) :
  delimiter <> EmptyString ->
  strstr remainder delimiter = Some (token, found) ->
  (String.length (advance (String.length delimiter) found)
   < String.length remainder)%nat.
Proof.
  intros Hd H. destruct (strstr_found _ _ _ _ H) as [-> Hp].
  apply starts_with_length in Hp.
  rewrite advance_length, length_append.
  destruct delimiter; [congruence|]. simpl in *. lia.
Qed.

(** ... so the loop never runs out of the turns [g_strsplit] grants it:
    any two allowances above the length of the remainder give the same
    result. *)
Lemma g_strsplit_loop_fuel (delimiter : string) :
  delimiter <> EmptyString ->
  forall fuel1 fuel2 remainder max_tokens tokens,
    (String.length remainder < fuel1)%nat ->
    (String.length remainder < fuel2)%nat ->
    g_strsplit_loop fuel1 remainder delimiter max_tokens tokens
    = g_strsplit_loop fuel2 remainder delimiter max_tokens tokens.
Proof.
  intros Hd. induction fuel1 as [|fuel1 IH]; intros fuel2 rem mt toks H1 H2.
  - lia.
  - destruct fuel2 as [|fuel2]; [lia|]. simpl.
    destruct (mt - 1 =? 0); [reflexivity|].
    destruct (strstr rem delimiter) as [[token found]|] eqn:Hs; [|reflexivity].
    pose proof (strstr_advance_shorter _ _ _ _ Hd Hs).
    apply IH; lia.
Qed.

Lemma strstr_colon_none (s : string) :
  contains ":" s = false -> strstr s ":" = None.
Proof.
  induction s as [|c rest IH]; cbn [strstr starts_with contains];
    [reflexivity|].
  intros H. apply orb_false_iff in H as [Hc Hr].
  rewrite Ascii.eqb_sym, Hc. cbn [andb]. now rewrite (IH Hr).
Qed.

Lemma strstr_colon_app (b d : string) :
  contains ":" b = false ->
  strstr (b ++ String ":" d) ":" = Some (b, String ":" d).
Proof.
  induction b as [|c rest IH]; cbn [strstr starts_with contains append].
  - intros _. rewrite Ascii.eqb_refl. reflexivity.
  - intros H. apply orb_false_iff in H as [Hc Hr].
    rewrite Ascii.eqb_sym, Hc. cbn [andb]. now rewrite (IH Hr).
Qed.

Lemma g_strsplit_one_field (s : string) :
  s <> EmptyString -> contains ":" s = false ->
  g_strsplit s ":" (-1) = [s].
Proof.
  intros Hne Hc. unfold g_strsplit. cbn [g_strsplit_loop Z.ltb Z.compare].
  cbv iota. change (G_MAXINT - 1 =? 0) with false. cbv iota.
  rewrite (strstr_colon_none _ Hc).
  destruct s; [congruence | reflexivity].
Qed.

Lemma g_strsplit_two_fields (b d : string) :
  contains ":" b = false -> contains ":" d = false ->
  g_strsplit (b ++ String ":" d) ":" (-1) = [b; d].
Proof.
  intros Hb Hd. unfold g_strsplit. cbn [Z.ltb Z.compare]. cbv iota.
  rewrite (g_strsplit_loop_fuel ":") with (fuel2 := S (S (String.length b + String.length d)));
    [ | discriminate | lia | rewrite length_append; simpl; lia ].
  cbn [g_strsplit_loop].
  change (G_MAXINT - 1 =? 0) with false.
  change (G_MAXINT - 1 - 1 =? 0) with false. cbv iota.
  rewrite (strstr_colon_app _ _ Hb). cbn [advance String.length].
  rewrite (strstr_colon_none _ Hd).
  destruct b; reflexivity.
Qed.

(** ** The callbacks by the number of fields *)

Lemma parse_busnum_devnum_no_field (value : string) (g : Selection) :
  g_strsplit value ":" (-1) = [] ->
  parse_busnum_devnum value g = Aborted.
Proof. intros H. unfold parse_busnum_devnum. rewrite H. reflexivity. Qed.

Lemma parse_busnum_devnum_one_field (value dev : string) (g : Selection) :
  g_strsplit value ":" (-1) = [dev] ->
  parse_busnum_devnum value g
  = if out_of_range (strtoul dev 10) G_MAXUINT
    then Returned (mkReturn false (Some ("invalid dev number: " ++ dev)%string) g)
    else Returned (mkReturn true None
                     (set_devnum (to_guint (strtoul dev 10)) g)).
Proof. intros H. unfold parse_busnum_devnum. rewrite H. reflexivity. Qed.

Lemma parse_busnum_devnum_two_fields (value bus dev : string) (g : Selection) :
  g_strsplit value ":" (-1) = [bus; dev] ->
  parse_busnum_devnum value g
  = if out_of_range (strtoul bus 10) G_MAXUINT
    then Returned (mkReturn false (Some ("invalid bus number: " ++ bus)%string) g)
    else if out_of_range (strtoul dev 10) G_MAXUINT
    then Returned (mkReturn false (Some ("invalid dev number: " ++ dev)%string)
                     (set_busnum (to_guint (strtoul bus 10)) g))
    else Returned (mkReturn true None
                     (set_devnum (to_guint (strtoul dev 10))
                        (set_busnum (to_guint (strtoul bus 10)) g))).
Proof.
  intros H. unfold parse_busnum_devnum. rewrite H.
  cbn [non_null nth_error negb andb Z.eqb].
  unfold field. change (Z.to_nat 1) with 1%nat. change (Z.to_nat 0) with 0%nat.
  cbn [nth].
  destruct (out_of_range (strtoul bus 10) G_MAXUINT); reflexivity.
Qed.

Lemma parse_busnum_devnum_more_fields (value f0 f1 f2 : string)
      (rest : list string) (g : Selection) :
  g_strsplit value ":" (-1) = f0 :: f1 :: f2 :: rest ->
  parse_busnum_devnum value g
  = Returned (mkReturn false
                (Some "invalid busnum-devnum string: too many fields") g).
Proof. intros H. unfold parse_busnum_devnum. rewrite H. reflexivity. Qed.

Lemma parse_vid_pid_no_field (value : string) (g : Selection) :
  g_strsplit value ":" (-1) = [] ->
  parse_vid_pid value g = Aborted.
Proof. intros H. unfold parse_vid_pid. rewrite H. reflexivity. Qed.

Lemma parse_vid_pid_one_field (value v : string) (g : Selection) :
  g_strsplit value ":" (-1) = [v] ->
  parse_vid_pid value g
  = if out_of_range (strtoul v 16) G_MAXUINT16
    then Returned (mkReturn false (Some ("invalid vendor id: " ++ v)%string) g)
    else Returned (mkReturn true None (set_vid (to_guint16 (strtoul v 16)) g)).
Proof. intros H. unfold parse_vid_pid. rewrite H. reflexivity. Qed.

Lemma parse_vid_pid_two_fields (value v p : string) (g : Selection) :
  g_strsplit value ":" (-1) = [v; p] ->
  parse_vid_pid value g
  = if out_of_range (strtoul p 16) G_MAXUINT16
    then Returned (mkReturn false (Some ("invalid product id: " ++ p)%string) g)
    else if out_of_range (strtoul v 16) G_MAXUINT16
    then Returned (mkReturn false (Some ("invalid vendor id: " ++ v)%string)
                     (set_pid (to_guint16 (to_guint (strtoul p 16))) g))
    else Returned (mkReturn true None
                     (set_vid (to_guint16 (strtoul v 16))
                        (set_pid (to_guint16 (to_guint (strtoul p 16))) g))).
Proof.
  intros H. unfold parse_vid_pid. rewrite H.
  cbn [non_null nth_error negb andb Z.eqb].
  unfold field. change (Z.to_nat 1) with 1%nat. change (Z.to_nat 0) with 0%nat.
  cbn [nth].
  destruct (out_of_range (strtoul p 16) G_MAXUINT16); reflexivity.
Qed.

Lemma parse_vid_pid_more_fields (value f0 f1 f2 : string)
      (rest : list string) (g : Selection) :
  g_strsplit value ":" (-1) = f0 :: f1 :: f2 :: rest ->
  parse_vid_pid value g
  = Returned (mkReturn false (Some "invalid vid-pid string: too many fields") g).
Proof. intros H. unfold parse_vid_pid. rewrite H. reflexivity. Qed.

Lemma out_of_range_false (aux limit : Z) :
  0 < aux <= limit -> out_of_range aux limit = false.
Proof.
  intros H. unfold out_of_range.
  destruct (Z.eqb_spec aux 0); [lia|].
  destruct (Z.ltb_spec limit aux); [lia | reflexivity].
Qed.

Lemma out_of_range_true (aux limit : Z) :
  aux = 0 \/ limit < aux -> out_of_range aux limit = true.
Proof.
  intros H. unfold out_of_range.
  destruct (Z.eqb_spec aux 0); [reflexivity|].
  destruct (Z.ltb_spec limit aux); [reflexivity | lia].
Qed.

Lemma decimal_numeral_no_colon (s : string) (n : Z) :
  decimal_value s = Some n -> s <> EmptyString /\ contains ":" s = false.
Proof.
  intros H.
  destruct (numeral_value_digits _ _ _ _ H) as (c & rest & ds & -> & Hd & _).
  split; [discriminate|].
  apply hex_numeral_no_colon with ds.
  exact (numeral_digits_weaken _ _ decimal_digit_hex _ _ Hd).
Qed.

Lemma hex_numeral_value_no_colon (s : string) (n : Z) :
  hex_value s = Some n -> s <> EmptyString /\ contains ":" s = false.
Proof.
  intros H.
  destruct (numeral_value_digits _ _ _ _ H) as (c & rest & ds & -> & Hd & _).
  split; [discriminate | exact (hex_numeral_no_colon _ _ Hd)].
Qed.

(** ** Range of [strtoul] *)

Lemma digit_of_nonneg (c : ascii) (d : Z) : digit_of c = Some d -> 0 <= d.
Proof.
  unfold digit_of. generalize (code c); intros n.
  destruct (48 <=? n) eqn:H1; cbn [andb].
  - destruct (n <=? 57); [intros [= <-]; apply Z.leb_le in H1; lia|].
    destruct (65 <=? n) eqn:H2; cbn [andb].
    + destruct (n <=? 90); [intros [= <-]; apply Z.leb_le in H2; lia|].
      destruct (97 <=? n) eqn:H3; cbn [andb]; [|discriminate].
      destruct (n <=? 122); [intros [= <-]; apply Z.leb_le in H3; lia|discriminate].
    + destruct (97 <=? n) eqn:H3; cbn [andb]; [|discriminate].
      destruct (n <=? 122); [intros [= <-]; apply Z.leb_le in H3; lia|discriminate].
  - destruct (65 <=? n) eqn:H2; cbn [andb].
    + destruct (n <=? 90); [intros [= <-]; apply Z.leb_le in H2; lia|].
      destruct (97 <=? n) eqn:H3; cbn [andb]; [|discriminate].
      destruct (n <=? 122); [intros [= <-]; apply Z.leb_le in H3; lia|discriminate].
    + destruct (97 <=? n) eqn:H3; cbn [andb]; [|discriminate].
      destruct (n <=? 122); [intros [= <-]; apply Z.leb_le in H3; lia|discriminate].
Qed.

Lemma strtoul_digits_nonneg (base : Z) (s : string) (acc : Z) :
  0 <= acc -> 0 <= strtoul_digits base s acc.
Proof.
  revert acc. induction s as [|c rest IH]; intros acc Hacc; simpl; [exact Hacc|].
  destruct (digit_of c) as [d|] eqn:Hd; [|exact Hacc].
  apply digit_of_nonneg in Hd.
  destruct (Z.ltb_spec d base); [|exact Hacc].
  apply IH. nia.
Qed.

Lemma strtoul_range (s : string) (base : Z) : 0 <= strtoul s base <= ULONG_MAX.
Proof.
  unfold strtoul.
  destruct (strip_sign (skip_spaces s)) as [negative s1].
  set (i := strtoul_digits base _ 0).
  assert (0 <= i) by (apply strtoul_digits_nonneg; lia).
  destruct (Z.ltb_spec ULONG_MAX i); [unfold ULONG_MAX; lia|].
  destruct negative; [|lia].
  unfold to_gulong.
  pose proof (Z.mod_pos_bound (- i) (ULONG_MAX + 1)).
  unfold ULONG_MAX in *. lia.
Qed.

Lemma out_of_range_strtoul (s : string) (base limit : Z) :
  out_of_range (strtoul s base) limit = false -> 0 < strtoul s base <= limit.
Proof.
  pose proof (strtoul_range s base) as Hr. unfold out_of_range.
  destruct (Z.eqb_spec (strtoul s base) 0); [discriminate|].
  destruct (Z.ltb_spec limit (strtoul s base)); [discriminate|]. lia.
Qed.

Lemma out_of_range_strtoul_true (s : string) (base limit : Z) :
  out_of_range (strtoul s base) limit = true ->
  strtoul s base = 0 \/ limit < strtoul s base.
Proof.
  unfold out_of_range.
  destruct (Z.eqb_spec (strtoul s base) 0); [left; assumption|].
  destruct (Z.ltb_spec limit (strtoul s base)); [right; assumption|discriminate].
Qed.

Lemma to_guint_small (x : Z) : 0 <= x <= G_MAXUINT -> to_guint x = x.
Proof. intros H. unfold to_guint. apply Z.mod_small. lia. Qed.

Lemma to_guint16_small (x : Z) : 0 <= x <= G_MAXUINT16 -> to_guint16 x = x.
Proof. intros H. unfold to_guint16. apply Z.mod_small. lia. Qed.

(** ** Parsing [[BUS:]DEV] *)

(** C3.  From unset selection variables, a decimal numeral DEV with
    0 < DEV <= max uint32 sets [devnum] to DEV and leaves [busnum]
    unset; BUS:DEV with both numerals in that range sets both; and
    "0:5", "5:0", "1:2:3" and "99999999999:1" are parse errors. *)
Theorem parse_busnum_devnum_grammar :
  (forall dev n,
      decimal_value dev = Some n -> 0 < n <= G_MAXUINT ->
      parse_busnum_devnum dev initial_selection
      = Returned (mkReturn true None (mkSelection 0 n 0 0)))
  /\ (forall bus dev nb nd,
         decimal_value bus = Some nb -> decimal_value dev = Some nd ->
         0 < nb <= G_MAXUINT -> 0 < nd <= G_MAXUINT ->
         parse_busnum_devnum (bus ++ String ":" dev) initial_selection
         = Returned (mkReturn true None (mkSelection nb nd 0 0)))
  /\ is_parse_error (parse_busnum_devnum "0:5" initial_selection) = true
  /\ is_parse_error (parse_busnum_devnum "5:0" initial_selection) = true
  /\ is_parse_error (parse_busnum_devnum "1:2:3" initial_selection) = true
  /\ is_parse_error (parse_busnum_devnum "99999999999:1" initial_selection) = true.
Proof.
  split; [|split; [|repeat split; reflexivity]].
  - intros dev n Hv Hn.
    destruct (decimal_numeral_no_colon _ _ Hv) as [Hne Hc].
    rewrite (parse_busnum_devnum_one_field _ _ _ (g_strsplit_one_field _ Hne Hc)).
    rewrite (strtoul_decimal _ _ Hv) by (unfold G_MAXUINT, ULONG_MAX in *; lia).
    rewrite out_of_range_false by exact Hn.
    rewrite to_guint_small by lia. reflexivity.
  - intros bus dev nb nd Hb Hd Hnb Hnd.
    destruct (decimal_numeral_no_colon _ _ Hb) as [_ Hcb].
    destruct (decimal_numeral_no_colon _ _ Hd) as [_ Hcd].
    rewrite (parse_busnum_devnum_two_fields _ _ _ _
               (g_strsplit_two_fields _ _ Hcb Hcd)).
    rewrite (strtoul_decimal _ _ Hb) by (unfold G_MAXUINT, ULONG_MAX in *; lia).
    rewrite (strtoul_decimal _ _ Hd) by (unfold G_MAXUINT, ULONG_MAX in *; lia).
    rewrite !out_of_range_false by assumption.
    rewrite !to_guint_small by lia. reflexivity.
Qed.

Lemma parse_busnum_devnum_grammar_witness :
  parse_busnum_devnum "42" initial_selection
  = Returned (mkReturn true None (mkSelection 0 42 0 0))
  /\ parse_busnum_devnum "003:4294967295" initial_selection
     = Returned (mkReturn true None (mkSelection 3 4294967295 0 0)).
Proof.
  destruct parse_busnum_devnum_grammar as (Hone & Htwo & _).
  split.
  - apply (Hone "42" 42); [reflexivity | unfold G_MAXUINT; lia].
  - apply (Htwo "003" "4294967295" 3 4294967295);
      try reflexivity; unfold G_MAXUINT; lia.
Defined.

(** ** Parsing [VID[:PID]] *)

(** C4.  From unset selection variables, a hexadecimal numeral VID
    with 0 < VID <= 0xFFFF sets [vid] to VID and leaves [pid] unset;
    VID:PID with both numerals in that range sets [vid] from field 0 and
    [pid] from field 1.  Three or more fields are an error, and so is any
    field that [strtoul] reads in base 16 as 0 or as more than 0xFFFF; in
    particular "0:ABCD", "ABCD:0", "1:2:3" and "FFFFF" are parse
    errors. *)
Theorem parse_vid_pid_grammar :
  (forall v n,
      hex_value v = Some n -> 0 < n <= G_MAXUINT16 ->
      parse_vid_pid v initial_selection
      = Returned (mkReturn true None (mkSelection 0 0 n 0)))
  /\ (forall v p nv np,
         hex_value v = Some nv -> hex_value p = Some np ->
         0 < nv <= G_MAXUINT16 -> 0 < np <= G_MAXUINT16 ->
         parse_vid_pid (v ++ String ":" p) initial_selection
         = Returned (mkReturn true None (mkSelection 0 0 nv np)))
  /\ (forall value g,
         (3 <= List.length (g_strsplit value ":" (-1)))%nat ->
         is_parse_error (parse_vid_pid value g) = true)
  /\ (forall value g f,
         In f (g_strsplit value ":" (-1)) ->
         strtoul f 16 = 0 \/ G_MAXUINT16 < strtoul f 16 ->
         is_parse_error (parse_vid_pid value g) = true)
  /\ is_parse_error (parse_vid_pid "0:ABCD" initial_selection) = true
  /\ is_parse_error (parse_vid_pid "ABCD:0" initial_selection) = true
  /\ is_parse_error (parse_vid_pid "1:2:3" initial_selection) = true
  /\ is_parse_error (parse_vid_pid "FFFFF" initial_selection) = true.
Proof.
  split; [|split; [|split; [|split; [|repeat split; reflexivity]]]].
  - intros v n Hv Hn.
    destruct (hex_numeral_value_no_colon _ _ Hv) as [Hne Hc].
    rewrite (parse_vid_pid_one_field _ _ _ (g_strsplit_one_field _ Hne Hc)).
    rewrite (strtoul_hex _ _ Hv) by (unfold G_MAXUINT16, ULONG_MAX in *; lia).
    rewrite out_of_range_false by exact Hn.
    rewrite to_guint16_small by lia. reflexivity.
  - intros v p nv np Hv Hp Hnv Hnp.
    destruct (hex_numeral_value_no_colon _ _ Hv) as [_ Hcv].
    destruct (hex_numeral_value_no_colon _ _ Hp) as [_ Hcp].
    rewrite (parse_vid_pid_two_fields _ _ _ _ (g_strsplit_two_fields _ _ Hcv Hcp)).
    rewrite (strtoul_hex _ _ Hv) by (unfold G_MAXUINT16, ULONG_MAX in *; lia).
    rewrite (strtoul_hex _ _ Hp) by (unfold G_MAXUINT16, ULONG_MAX in *; lia).
    rewrite !out_of_range_false by assumption.
    rewrite (to_guint_small np) by (unfold G_MAXUINT16, G_MAXUINT in *; lia).
    rewrite !to_guint16_small by lia. reflexivity.
  - intros value g Hlen.
    destruct (g_strsplit value ":" (-1)) as [|f0 [|f1 [|f2 rest]]] eqn:Hs;
      simpl in Hlen; try lia.
    rewrite (parse_vid_pid_more_fields _ _ _ _ _ _ Hs). reflexivity.
  - intros value g f Hin Hbad.
    apply (out_of_range_true _ G_MAXUINT16) in Hbad.
    destruct (g_strsplit value ":" (-1)) as [|f0 [|f1 [|f2 rest]]] eqn:Hs.
    + destruct Hin.
    + destruct Hin as [<-|[]].
      rewrite (parse_vid_pid_one_field _ _ _ Hs), Hbad. reflexivity.
    + rewrite (parse_vid_pid_two_fields _ _ _ _ Hs).
      destruct Hin as [<-|[<-|[]]].
      * rewrite Hbad.
        destruct (out_of_range (strtoul f1 16) G_MAXUINT16); reflexivity.
      * rewrite Hbad. reflexivity.
    + rewrite (parse_vid_pid_more_fields _ _ _ _ _ _ Hs). reflexivity.
Qed.

Lemma parse_vid_pid_grammar_witness :
  parse_vid_pid "1199" initial_selection
  = Returned (mkReturn true None (mkSelection 0 0 4505 0))
  /\ parse_vid_pid "1199:9071" initial_selection
     = Returned (mkReturn true None (mkSelection 0 0 4505 36977))
  /\ is_parse_error (parse_vid_pid "1:2:3" initial_selection) = true
  /\ is_parse_error (parse_vid_pid "12345:1" initial_selection) = true.
Proof.
  destruct parse_vid_pid_grammar as (Hone & Htwo & Hmany & Hbad & _).
  split; [|split; [|split]].
  - apply (Hone "1199" 4505); [reflexivity | unfold G_MAXUINT16; lia].
  - apply (Htwo "1199" "9071" 4505 36977);
      try reflexivity; unfold G_MAXUINT16; lia.
  - apply Hmany. vm_compute. lia.
  - apply (Hbad _ _ "12345").
    + vm_compute. left. reflexivity.
    + right. vm_compute. reflexivity.
Defined.

(** ** The selection variables after a parse error *)

(** C1, as stated, fails: "5:0" is rejected for its dev field after
    [busnum] has been set to 5, and "0:ABCD" is rejected for its vendor
    field after [pid] has been set to 0xABCD. *)
Lemma parse_error_partial_state_counterexample :
  parse_busnum_devnum "5:0" initial_selection
  = Returned (mkReturn false (Some "invalid dev number: 0")
                       (mkSelection 5 0 0 0))
  /\ mkSelection 5 0 0 0 <> initial_selection
  /\ parse_vid_pid "0:ABCD" initial_selection
     = Returned (mkReturn false (Some "invalid vendor id: 0")
                          (mkSelection 0 0 0 43981))
  /\ mkSelection 0 0 0 43981 <> initial_selection.
Proof.
  split; [reflexivity|]. split; [discriminate|].
  split; [reflexivity|]. discriminate.
Qed.

(** C1, amended.  When [parse_busnum_devnum] returns an error the
    selection variables are as before the call, unless the input has
    exactly two fields with a valid bus field and an invalid dev field:
    that call does return an error, and after it [busnum] holds the bus
    value and the other three are as before.  When [parse_vid_pid]
    returns an error they are as before the call, unless the input has
    exactly two fields with a valid product field and an invalid vendor
    field: that call does return an error, and after it [pid] holds the
    product value and the other three are as before. *)
Theorem parse_error_retained_state (value : string) (g : Selection) :
  ((forall bus dev,
       g_strsplit value ":" (-1) = [bus; dev] ->
       0 < strtoul bus 10 <= G_MAXUINT ->
       strtoul dev 10 = 0 \/ G_MAXUINT < strtoul dev 10 ->
       parse_busnum_devnum value g
       = Returned (mkReturn false
                     (Some ("invalid dev number: " ++ dev)%string)
                     (mkSelection (strtoul bus 10) (devnum g) (vid g) (pid g))))
   /\ (forall r,
          parse_busnum_devnum value g = Returned r -> result r = false ->
          ~ (exists bus dev,
                g_strsplit value ":" (-1) = [bus; dev]
                /\ 0 < strtoul bus 10 <= G_MAXUINT) ->
          globals r = g))
  /\ ((forall v p,
          g_strsplit value ":" (-1) = [v; p] ->
          0 < strtoul p 16 <= G_MAXUINT16 ->
          strtoul v 16 = 0 \/ G_MAXUINT16 < strtoul v 16 ->
          parse_vid_pid value g
          = Returned (mkReturn false
                        (Some ("invalid vendor id: " ++ v)%string)
                        (mkSelection (busnum g) (devnum g) (vid g)
                                     (strtoul p 16))))
      /\ (forall r,
             parse_vid_pid value g = Returned r -> result r = false ->
             ~ (exists v p,
                   g_strsplit value ":" (-1) = [v; p]
                   /\ 0 < strtoul p 16 <= G_MAXUINT16) ->
             globals r = g)).
Proof.
  split; split.
  - intros bus dev Hs Hb Hd.
    rewrite (parse_busnum_devnum_two_fields _ _ _ _ Hs).
    rewrite (out_of_range_false _ _ Hb), (out_of_range_true _ _ Hd).
    rewrite to_guint_small by lia. reflexivity.
  - intros r Hp Hr Hno.
    destruct (g_strsplit value ":" (-1)) as [|f0 [|f1 [|f2 rest]]] eqn:Hs.
    + rewrite (parse_busnum_devnum_no_field _ _ Hs) in Hp. discriminate.
    + rewrite (parse_busnum_devnum_one_field _ _ _ Hs) in Hp.
      destruct (out_of_range (strtoul f0 10) G_MAXUINT);
        injection Hp as <-; [reflexivity | discriminate Hr].
    + rewrite (parse_busnum_devnum_two_fields _ _ _ _ Hs) in Hp.
      destruct (out_of_range (strtoul f0 10) G_MAXUINT) eqn:Hb;
        [injection Hp as <-; reflexivity|].
      exfalso. apply Hno. exists f0, f1. split; [reflexivity|].
      exact (out_of_range_strtoul _ _ _ Hb).
    + rewrite (parse_busnum_devnum_more_fields _ _ _ _ _ _ Hs) in Hp.
      injection Hp as <-. reflexivity.
  - intros v p Hs Hp Hv.
    rewrite (parse_vid_pid_two_fields _ _ _ _ Hs).
    rewrite (out_of_range_false _ _ Hp), (out_of_range_true _ _ Hv).
    rewrite to_guint_small by (unfold G_MAXUINT16, G_MAXUINT in *; lia).
    rewrite to_guint16_small by lia. reflexivity.
  - intros r Hp Hr Hno.
    destruct (g_strsplit value ":" (-1)) as [|f0 [|f1 [|f2 rest]]] eqn:Hs.
    + rewrite (parse_vid_pid_no_field _ _ Hs) in Hp. discriminate.
    + rewrite (parse_vid_pid_one_field _ _ _ Hs) in Hp.
      destruct (out_of_range (strtoul f0 16) G_MAXUINT16);
        injection Hp as <-; [reflexivity | discriminate Hr].
    + rewrite (parse_vid_pid_two_fields _ _ _ _ Hs) in Hp.
      destruct (out_of_range (strtoul f1 16) G_MAXUINT16) eqn:Hb;
        [injection Hp as <-; reflexivity|].
      exfalso. apply Hno. exists f0, f1. split; [reflexivity|].
      exact (out_of_range_strtoul _ _ _ Hb).
    + rewrite (parse_vid_pid_more_fields _ _ _ _ _ _ Hs) in Hp.
      injection Hp as <-. reflexivity.
Qed.

Lemma parse_error_retained_state_witness :
  parse_busnum_devnum "7:x" (mkSelection 1 2 3 4)
  = Returned (mkReturn false (Some "invalid dev number: x")
                       (mkSelection 7 2 3 4))
  /\ globals (mkReturn false (Some "invalid bus number: 0")
                       (mkSelection 1 2 3 4))
     = mkSelection 1 2 3 4
  /\ parse_vid_pid "0:abcd" (mkSelection 1 2 3 4)
     = Returned (mkReturn false (Some "invalid vendor id: 0")
                          (mkSelection 1 2 3 43981))
  /\ globals (mkReturn false (Some "invalid vid-pid string: too many fields")
                       (mkSelection 1 2 3 4))
     = mkSelection 1 2 3 4.
Proof.
  split; [|split; [|split]].
  - apply (proj1 (proj1 (parse_error_retained_state "7:x" (mkSelection 1 2 3 4)))
             "7" "x");
      [reflexivity | vm_compute; split; [reflexivity | discriminate]
       | left; reflexivity].
  - apply (proj2 (proj1 (parse_error_retained_state "0:5" (mkSelection 1 2 3 4))));
      [reflexivity | reflexivity|].
    intros (bus & dev & Hs & Hb). injection Hs as <- <-.
    vm_compute in Hb. destruct Hb as [Hb _]. discriminate Hb.
  - apply (proj1 (proj2 (parse_error_retained_state "0:abcd" (mkSelection 1 2 3 4)))
             "0" "abcd");
      [reflexivity | vm_compute; split; [reflexivity | discriminate]
       | left; reflexivity].
  - apply (proj2 (proj2 (parse_error_retained_state "1:2:3" (mkSelection 1 2 3 4))));
      [reflexivity | reflexivity|].
    intros (v & p & Hs & _). discriminate Hs.
Defined.

(** ** Resolution and dispatch *)

Lemma nonzero_true (x : Z) : x <> 0 -> nonzero x = true.
Proof. intros H. unfold nonzero. now destruct (Z.eqb_spec x 0). Qed.

Lemma nonzero_either (x y : Z) : x <> 0 \/ y <> 0 -> nonzero x || nonzero y = true.
Proof.
  intros [H|H]; rewrite (nonzero_true _ H); [reflexivity | apply orb_true_r].
Qed.

Lemma nonzero_neither (x y : Z) : x = 0 -> y = 0 -> nonzero x || nonzero y = false.
Proof. intros -> ->. reflexivity. Qed.

Lemma action_count_range (o : Options) : 0 <= action_count o <= 3.
Proof.
  unfold action_count.
  destruct (action_verify_flag o), (action_update_flag o),
    (action_update_qdl_flag o); simpl; lia.
Qed.

Lemma runs_action_flags (o : Options) (a : Action) :
  runs_action o a = true ->
  version_flag o = false /\ help_flag o = false
  /\ action_update_flag o = match a with Update => true | _ => false end
  /\ action_update_qdl_flag o = match a with UpdateQdl => true | _ => false end
  /\ action_verify_flag o = match a with Verify => true | _ => false end.
Proof.
  unfold runs_action. intros H.
  apply andb_true_iff in H as [H Hz]. apply andb_true_iff in H as [H Hq].
  apply andb_true_iff in H as [H Hu]. apply andb_true_iff in H as [Hv Hh].
  apply negb_true_iff in Hv, Hh.
  apply Bool.eqb_prop in Hz, Hq, Hu. auto.
Qed.

Section ProgramProperties.

Context {env : Environment}.

(** [main] on a run of each action, in terms of [select_path]. *)

Lemma main_update_run (g : Selection) (o : Options) (images : list string) :
  runs_action o Update = true -> image_strv o = Some images ->
  main None g o
  = match select_path (device_str o) QFU_UDEV_HELPER_DEVICE_TYPE_CDC_WDM g with
    | (Some path, t) =>
        (Returned (exit_status
                     (update_run images path (firmware_version_str o)
                                 (config_version_str o) (carrier_str o)
                                 (device_open_proxy_flag o)
                                 (device_open_mbim_flag o))),
         log_setup o ++ t
         ++ [EvDebug ("using cdc-wdm device: " ++ path)%string;
             EvUpdateRun images path (firmware_version_str o)
                         (config_version_str o) (carrier_str o)
                         (device_open_proxy_flag o)
                         (device_open_mbim_flag o)])
    | (None, t) => (Returned EXIT_FAILURE, log_setup o ++ t)
    end.
Proof.
  intros Hr Hi.
  destruct (runs_action_flags _ _ Hr) as (Hv & Hh & Hu & Hq & Hz).
  unfold main, log_setup. rewrite Hv, Hh, Hu, Hq, Hz, Hi.
  cbn [Z.b2z Z.add to_guint].
  destruct (select_path _ _ g) as [[path|] t];
    destruct (verbose_flag o); cbn; rewrite ?app_nil_r; reflexivity.
Qed.

Lemma main_update_qdl_run (g : Selection) (o : Options) (images : list string) :
  runs_action o UpdateQdl = true -> image_strv o = Some images ->
  main None g o
  = match select_path (serial_str o) QFU_UDEV_HELPER_DEVICE_TYPE_TTY g with
    | (Some path, t) =>
        (Returned (exit_status (update_qdl_run images path)),
         log_setup o ++ t
         ++ [EvDebug ("using tty device: " ++ path)%string;
             EvUpdateQdlRun images path])
    | (None, t) => (Returned EXIT_FAILURE, log_setup o ++ t)
    end.
Proof.
  intros Hr Hi.
  destruct (runs_action_flags _ _ Hr) as (Hv & Hh & Hu & Hq & Hz).
  unfold main, log_setup. rewrite Hv, Hh, Hu, Hq, Hz, Hi.
  cbn [Z.b2z Z.add to_guint].
  destruct (select_path _ _ g) as [[path|] t];
    destruct (verbose_flag o); cbn; rewrite ?app_nil_r; reflexivity.
Qed.

Lemma main_verify_run (g : Selection) (o : Options) (images : list string) :
  runs_action o Verify = true -> image_strv o = Some images ->
  main None g o
  = (Returned (exit_status (verify_run images)),
     log_setup o ++ [EvVerifyRun images]).
Proof.
  intros Hr Hi.
  destruct (runs_action_flags _ _ Hr) as (Hv & Hh & Hu & Hq & Hz).
  unfold main, log_setup. rewrite Hv, Hh, Hu, Hq, Hz, Hi.
  destruct (verbose_flag o); reflexivity.
Qed.

(** *** Exclusivity of the selection mechanisms *)

(** C2, amended.  [select_path] tests manual path against vid:pid first, manual
    path against busnum:devnum second and vid:pid against
    busnum:devnum third, and prints the message of the first test that
    fails, whatever the later ones would say.  With a manual path and a
    vid or pid it returns NULL having printed only the first message:
    the enumeration collaborator is not called; an Update run given
    [--device], or an UpdateQdl run given [--serial], together with a vid
    or pid thus fails without any enumeration or operation. *)
Theorem select_path_exclusivity_order
        (manual : option string) (type : QfuUdevHelperDeviceType)
        (g : Selection) :
  (is_set manual = true -> vid g <> 0 \/ pid g <> 0 ->
   select_path manual type g
   = (None,
      [EvPrintErr ("error: cannot specify device path and vid:pid lookup" ++ nl)%string]))
  /\ (is_set manual = true -> vid g = 0 -> pid g = 0 ->
      busnum g <> 0 \/ devnum g <> 0 ->
      select_path manual type g
      = (None,
         [EvPrintErr ("error: cannot specify device path and busnum:devnum lookup" ++ nl)%string]))
  /\ (manual = None -> vid g <> 0 \/ pid g <> 0 ->
      busnum g <> 0 \/ devnum g <> 0 ->
      select_path manual type g
      = (None,
         [EvPrintErr ("error: cannot specify busnum:devnum and vid:pid lookups" ++ nl)%string]))
  /\ (forall o images,
         image_strv o = Some images ->
         (runs_action o Update = true /\ device_str o = manual)
         \/ (runs_action o UpdateQdl = true /\ serial_str o = manual) ->
         is_set manual = true -> vid g <> 0 \/ pid g <> 0 ->
         value (main None g o) = Returned EXIT_FAILURE
         /\ stderr_of (trace (main None g o))
            = [("error: cannot specify device path and vid:pid lookup" ++ nl)%string]
         /\ enumeration_of (trace (main None g o)) = []
         /\ operations_of (trace (main None g o)) = []).
Proof.
  assert (H1 : is_set manual = true -> vid g <> 0 \/ pid g <> 0 ->
               select_path manual type g
               = (None,
                  [EvPrintErr ("error: cannot specify device path and vid:pid lookup" ++ nl)%string])).
  { intros Hm Hv. unfold select_path.
    rewrite Hm, (nonzero_either _ _ Hv). reflexivity. }
  split; [exact H1|]. split; [|split].
  - intros Hm Hv Hp Hb. unfold select_path.
    rewrite Hm, (nonzero_neither _ _ Hv Hp), (nonzero_either _ _ Hb).
    reflexivity.
  - intros -> Hv Hb. unfold select_path.
    rewrite (nonzero_either _ _ Hv), (nonzero_either _ _ Hb). reflexivity.
  - intros o images Hi [[Hr Hd]|[Hr Hd]] Hm Hv.
    + rewrite (main_update_run g o images Hr Hi), Hd.
      unfold select_path.
      rewrite Hm, (nonzero_either _ _ Hv).
      unfold log_setup. destruct (verbose_flag o); repeat split; reflexivity.
    + rewrite (main_update_qdl_run g o images Hr Hi), Hd.
      unfold select_path.
      rewrite Hm, (nonzero_either _ _ Hv).
      unfold log_setup. destruct (verbose_flag o); repeat split; reflexivity.
Qed.

(** *** The number of actions and the images *)

(** C5, amended.  On a run whose options parsed and that asks for
    neither the version nor the help text: with no action flag the run
    prints "no actions specified", with more than one it prints "too
    many actions specified"; either way nothing else is printed to
    standard error, no operation is run and the exit status is
    EXIT_FAILURE. *)
Theorem main_action_count (g : Selection) (o : Options) :
  version_flag o = false -> help_flag o = false ->
  (action_count o = 0 ->
   main None g o
   = (Returned EXIT_FAILURE,
      log_setup o ++ [EvPrintErr ("error: no actions specified" ++ nl)%string]))
  /\ (1 < action_count o ->
      main None g o
      = (Returned EXIT_FAILURE,
         log_setup o
         ++ [EvPrintErr ("error: too many actions specified" ++ nl)%string]))
  /\ (action_count o <> 1 -> operations_of (trace (main None g o)) = []).
Proof.
  intros Hv Hh. unfold main, action_count, log_setup. rewrite Hv, Hh.
  destruct (action_verify_flag o), (action_update_flag o),
    (action_update_qdl_flag o), (verbose_flag o);
    cbn [Z.b2z Z.add]; (split; [|split]); intros H;
    try lia; try reflexivity.
Qed.

(** C6, amended.  On a run whose options parsed, that asks for neither
    the version nor the help text and has no positional image
    argument: with exactly one action flag, whichever it is, the run
    prints "no firmware images specified", runs no operation and exits
    with EXIT_FAILURE; with no or several action flags the error
    printed is the one about the actions. *)
Theorem main_no_images (g : Selection) (o : Options) :
  version_flag o = false -> help_flag o = false -> image_strv o = None ->
  (action_count o = 1 ->
   main None g o
   = (Returned EXIT_FAILURE,
      log_setup o
      ++ [EvPrintErr ("error: no firmware images specified" ++ nl)%string]))
  /\ (action_count o = 0 ->
      stderr_of (trace (main None g o))
      = [("error: no actions specified" ++ nl)%string])
  /\ (1 < action_count o ->
      stderr_of (trace (main None g o))
      = [("error: too many actions specified" ++ nl)%string])
  /\ value (main None g o) = Returned EXIT_FAILURE
  /\ operations_of (trace (main None g o)) = [].
Proof.
  intros Hv Hh Hi. unfold main, action_count, log_setup. rewrite Hv, Hh, Hi.
  destruct (action_verify_flag o), (action_update_flag o),
    (action_update_qdl_flag o), (verbose_flag o);
    cbn [Z.b2z Z.add];
    (split; [|split; [|split; [|split]]]); try intros H;
    try lia; try reflexivity.
Qed.

(** *** Resolution *)

Lemma no_lookup_conflict (g : Selection) :
  (vid g = 0 /\ pid g = 0) \/ (busnum g = 0 /\ devnum g = 0) ->
  (nonzero (vid g) || nonzero (pid g))
  && (nonzero (busnum g) || nonzero (devnum g)) = false.
Proof.
  intros [[-> ->]|[-> ->]]; [reflexivity | apply andb_false_r].
Qed.

Lemma select_path_lookup (type : QfuUdevHelperDeviceType) (g : Selection) :
  (vid g = 0 /\ pid g = 0) \/ (busnum g = 0 /\ devnum g = 0) ->
  select_path None type g
  = match find_by_device_info (vid g) (pid g) (busnum g) (devnum g) with
    | inr message =>
        (None,
         [EvFindByDeviceInfo (vid g) (pid g) (busnum g) (devnum g);
          EvPrintErr ("error: " ++ message ++ nl)%string])
    | inl sysfs_path =>
        match list_devices type sysfs_path with
        | [] =>
            (None,
             [EvFindByDeviceInfo (vid g) (pid g) (busnum g) (devnum g);
              EvListDevices type sysfs_path;
              EvPrintErr ("error: no devices found in sysfs path: "
                          ++ sysfs_path ++ nl)%string])
        | data :: _ =>
            (g_file_get_path data,
             [EvFindByDeviceInfo (vid g) (pid g) (busnum g) (devnum g);
              EvListDevices type sysfs_path])
        end
    end.
Proof.
  intros Hno. unfold select_path. cbn [is_set andb].
  rewrite (no_lookup_conflict g Hno). cbn.
  destruct (find_by_device_info _ _ _ _) as [sysfs_path|message]; cbn;
    [|reflexivity].
  destruct (list_devices type sysfs_path); reflexivity.
Qed.

(** C7.  [select_path] with a manual path and no lookup criterion
    returns that path and does nothing else.  Without a manual path and
    without both kinds of lookup criteria it asks
    [qfu_udev_helper_find_by_device_info] for the sysfs path and, when
    there is none, prints the helper's error and returns NULL;
    otherwise it lists the devices of the requested type below that
    path and, when there are none, prints "no devices found in sysfs
    path: <path>" and returns NULL, so that an Update or UpdateQdl run
    fails with no operation run; otherwise it returns the path of the
    first device listed. *)
Theorem select_path_algorithm (type : QfuUdevHelperDeviceType) (g : Selection) :
  (forall path,
      vid g = 0 -> pid g = 0 -> busnum g = 0 -> devnum g = 0 ->
      select_path (Some path) type g = (Some path, []))
  /\ ((vid g = 0 /\ pid g = 0) \/ (busnum g = 0 /\ devnum g = 0) ->
      (forall message,
          find_by_device_info (vid g) (pid g) (busnum g) (devnum g)
          = inr message ->
          select_path None type g
          = (None,
             [EvFindByDeviceInfo (vid g) (pid g) (busnum g) (devnum g);
              EvPrintErr ("error: " ++ message ++ nl)%string]))
      /\ (forall sysfs_path,
             find_by_device_info (vid g) (pid g) (busnum g) (devnum g)
             = inl sysfs_path ->
             (list_devices type sysfs_path = [] ->
              select_path None type g
              = (None,
                 [EvFindByDeviceInfo (vid g) (pid g) (busnum g) (devnum g);
                  EvListDevices type sysfs_path;
                  EvPrintErr ("error: no devices found in sysfs path: "
                              ++ sysfs_path ++ nl)%string])
              /\ (forall o images,
                     image_strv o = Some images ->
                     (runs_action o Update = true /\ device_str o = None
                      /\ type = QFU_UDEV_HELPER_DEVICE_TYPE_CDC_WDM)
                     \/ (runs_action o UpdateQdl = true /\ serial_str o = None
                         /\ type = QFU_UDEV_HELPER_DEVICE_TYPE_TTY) ->
                     value (main None g o) = Returned EXIT_FAILURE
                     /\ stderr_of (trace (main None g o))
                        = [("error: no devices found in sysfs path: "
                            ++ sysfs_path ++ nl)%string]
                     /\ operations_of (trace (main None g o)) = []))
             /\ (forall data rest,
                    list_devices type sysfs_path = data :: rest ->
                    select_path None type g
                    = (g_file_get_path data,
                       [EvFindByDeviceInfo (vid g) (pid g) (busnum g) (devnum g);
                        EvListDevices type sysfs_path])))).
Proof.
  split.
  - intros path Hv Hp Hb Hd. unfold select_path.
    rewrite Hv, Hp, Hb, Hd. reflexivity.
  - intros Hno. pose proof (select_path_lookup type g Hno) as Hs.
    split.
    + intros message Hf. rewrite Hs, Hf. reflexivity.
    + intros sysfs_path Hf. rewrite Hf in Hs. split.
      * intros Hl. rewrite Hl in Hs. split; [exact Hs|].
        intros o images Hi [(Hr & Hm & ->)|(Hr & Hm & ->)].
        -- rewrite (main_update_run g o images Hr Hi), Hm, Hs.
           unfold log_setup. destruct (verbose_flag o);
             (split; [|split]); reflexivity.
        -- rewrite (main_update_qdl_run g o images Hr Hi), Hm, Hs.
           unfold log_setup. destruct (verbose_flag o);
             (split; [|split]); reflexivity.
      * intros data rest Hl. rewrite Hl in Hs. exact Hs.
Qed.

(** *** Dispatch *)

Lemma select_path_no_operation
      (manual : option string) (type : QfuUdevHelperDeviceType)
      (g : Selection) :
  operations_of (trace (select_path manual type g)) = [].
Proof.
  unfold select_path.
  destruct (is_set manual && (nonzero (vid g) || nonzero (pid g)));
    [reflexivity|].
  destruct (is_set manual && (nonzero (busnum g) || nonzero (devnum g)));
    [reflexivity|].
  destruct ((nonzero (vid g) || nonzero (pid g))
            && (nonzero (busnum g) || nonzero (devnum g))); [reflexivity|].
  destruct manual as [path|]; [reflexivity|]. cbn.
  destruct (find_by_device_info _ _ _ _) as [sysfs_path|message]; cbn;
    [|reflexivity].
  destruct (list_devices type sysfs_path); reflexivity.
Qed.

Lemma operations_of_app (t1 t2 : list Event) :
  operations_of (t1 ++ t2) = operations_of t1 ++ operations_of t2.
Proof. apply filter_app. Qed.

Lemma operations_of_log_setup (o : Options) : operations_of (log_setup o) = [].
Proof. unfold log_setup. destruct (verbose_flag o); reflexivity. Qed.

(** C8.  An Update run resolves with [select_path] on the [--device]
    path and the cdc-wdm type, an UpdateQdl run with the same
    [select_path] on the [--serial] path and the tty type.  When that
    gives a path, the one operation run is the update with the images,
    that path, the firmware version, the config version, the carrier
    and the proxy and MBIM flags, respectively the QDL update with the
    images and that path, and the exit status is the operation's
    result; when it gives none the run fails without an operation. *)
Theorem main_dispatch_binding (g : Selection) (o : Options)
        (images : list string) :
  image_strv o = Some images ->
  (runs_action o Update = true ->
   let r := select_path (device_str o) QFU_UDEV_HELPER_DEVICE_TYPE_CDC_WDM g in
   match value r with
   | Some path =>
       main None g o
       = (Returned (exit_status
                      (update_run images path (firmware_version_str o)
                                  (config_version_str o) (carrier_str o)
                                  (device_open_proxy_flag o)
                                  (device_open_mbim_flag o))),
          log_setup o ++ trace r
          ++ [EvDebug ("using cdc-wdm device: " ++ path)%string;
              EvUpdateRun images path (firmware_version_str o)
                          (config_version_str o) (carrier_str o)
                          (device_open_proxy_flag o)
                          (device_open_mbim_flag o)])
       /\ operations_of (trace (main None g o))
          = [EvUpdateRun images path (firmware_version_str o)
                         (config_version_str o) (carrier_str o)
                         (device_open_proxy_flag o)
                         (device_open_mbim_flag o)]
   | None =>
       main None g o = (Returned EXIT_FAILURE, log_setup o ++ trace r)
       /\ operations_of (trace (main None g o)) = []
   end)
  /\ (runs_action o UpdateQdl = true ->
      let r := select_path (serial_str o) QFU_UDEV_HELPER_DEVICE_TYPE_TTY g in
      match value r with
      | Some path =>
          main None g o
          = (Returned (exit_status (update_qdl_run images path)),
             log_setup o ++ trace r
             ++ [EvDebug ("using tty device: " ++ path)%string;
                 EvUpdateQdlRun images path])
          /\ operations_of (trace (main None g o))
             = [EvUpdateQdlRun images path]
      | None =>
          main None g o = (Returned EXIT_FAILURE, log_setup o ++ trace r)
          /\ operations_of (trace (main None g o)) = []
      end).
Proof.
  intros Hi. split; intros Hr r.
  - pose proof (main_update_run g o images Hr Hi) as Hm.
    pose proof (select_path_no_operation (device_str o)
                  QFU_UDEV_HELPER_DEVICE_TYPE_CDC_WDM g) as Hn.
    fold r in Hm, Hn. destruct r as [[path|] t]; cbn [value trace fst snd] in *;
      rewrite Hm; (split; [reflexivity|]); cbn [trace snd];
      rewrite !operations_of_app, operations_of_log_setup, Hn; reflexivity.
  - pose proof (main_update_qdl_run g o images Hr Hi) as Hm.
    pose proof (select_path_no_operation (serial_str o)
                  QFU_UDEV_HELPER_DEVICE_TYPE_TTY g) as Hn.
    fold r in Hm, Hn. destruct r as [[path|] t]; cbn [value trace fst snd] in *;
      rewrite Hm; (split; [reflexivity|]); cbn [trace snd];
      rewrite !operations_of_app, operations_of_log_setup, Hn; reflexivity.
Qed.

(** C9.  A Verify run with images and no selection option (selection
    variables unset, no [--device], no [--serial]) runs the verify
    operation on the images and nothing else but the logging set-up: no
    enumeration call; its exit status is EXIT_SUCCESS exactly when the
    operation reports success. *)
Theorem main_verify_offline (o : Options) (images : list string) :
  runs_action o Verify = true -> image_strv o = Some images ->
  device_str o = None -> serial_str o = None ->
  main None initial_selection o
  = (Returned (exit_status (verify_run images)),
     log_setup o ++ [EvVerifyRun images])
  /\ enumeration_of (trace (main None initial_selection o)) = []
  /\ operations_of (trace (main None initial_selection o))
     = [EvVerifyRun images]
  /\ (value (main None initial_selection o) = Returned EXIT_SUCCESS
      <-> verify_run images = true).
Proof.
  intros Hr Hi _ _. rewrite (main_verify_run initial_selection o images Hr Hi).
  unfold log_setup.
  destruct (verbose_flag o), (verify_run images);
    (split; [|split; [|split; [|split]]]);
    try reflexivity; try discriminate; intros [=].
Qed.

(** C10.  A Verify run never reaches the exclusivity tests of
    [select_path]: whatever the selection variables and the [--device]
    and [--serial] paths, all set together included, it prints nothing
    to standard error, calls no enumeration, runs the verify operation
    on the images and exits with EXIT_SUCCESS when that succeeds. *)
Theorem main_verify_skips_exclusivity (g : Selection) (o : Options)
        (images : list string) :
  runs_action o Verify = true -> image_strv o = Some images ->
  stderr_of (trace (main None g o)) = []
  /\ enumeration_of (trace (main None g o)) = []
  /\ operations_of (trace (main None g o)) = [EvVerifyRun images]
  /\ (verify_run images = true ->
      value (main None g o) = Returned EXIT_SUCCESS).
Proof.
  intros Hr Hi. rewrite (main_verify_run g o images Hr Hi).
  unfold log_setup.
  destruct (verbose_flag o); (split; [|split; [|split]]);
    try reflexivity; intros ->; reflexivity.
Qed.

End ProgramProperties.

(** ** The claims on the sample environment *)

Lemma select_path_exclusivity_order_witness :
  Sample.resolve (Some "/dev/cdc-wdm4") QFU_UDEV_HELPER_DEVICE_TYPE_CDC_WDM
                 (mkSelection 1 2 4505 0)
  = (None,
     [EvPrintErr ("error: cannot specify device path and vid:pid lookup" ++ nl)%string])
  /\ Sample.resolve (Some "/dev/ttyUSB0") QFU_UDEV_HELPER_DEVICE_TYPE_TTY
                    (mkSelection 1 2 0 0)
     = (None,
        [EvPrintErr ("error: cannot specify device path and busnum:devnum lookup" ++ nl)%string])
  /\ Sample.resolve None QFU_UDEV_HELPER_DEVICE_TYPE_CDC_WDM
                    (mkSelection 0 2 4505 0)
     = (None,
        [EvPrintErr ("error: cannot specify busnum:devnum and vid:pid lookups" ++ nl)%string])
  /\ enumeration_of
       (trace (Sample.run None (mkSelection 1 2 4505 0)
                 (mkOptions true (Some "/dev/cdc-wdm4") None None None false false
                            false None false (Some ["fw.cwe"])
                            false false false false)))
     = [].
Proof.
  split; [|split; [|split]].
  - apply (proj1 (select_path_exclusivity_order
                    (env := Sample.environment) (Some "/dev/cdc-wdm4")
                    QFU_UDEV_HELPER_DEVICE_TYPE_CDC_WDM (mkSelection 1 2 4505 0)));
      [reflexivity | left; discriminate].
  - apply (proj1 (proj2 (select_path_exclusivity_order
                    (env := Sample.environment) (Some "/dev/ttyUSB0")
                    QFU_UDEV_HELPER_DEVICE_TYPE_TTY (mkSelection 1 2 0 0))));
      [reflexivity | reflexivity | reflexivity | left; discriminate].
  - apply (proj1 (proj2 (proj2 (select_path_exclusivity_order
                    (env := Sample.environment) None
                    QFU_UDEV_HELPER_DEVICE_TYPE_CDC_WDM (mkSelection 0 2 4505 0)))));
      [reflexivity | left; discriminate | right; discriminate].
  - apply (proj2 (proj2 (proj2 (select_path_exclusivity_order
                    (env := Sample.environment) (Some "/dev/cdc-wdm4")
                    QFU_UDEV_HELPER_DEVICE_TYPE_CDC_WDM (mkSelection 1 2 4505 0))))
             (mkOptions true (Some "/dev/cdc-wdm4") None None None false false
                        false None false (Some ["fw.cwe"])
                        false false false false)
             ["fw.cwe"]);
      [reflexivity | left; split; reflexivity | reflexivity | left; discriminate].
Defined.

(** C5, as stated, fails: a run with [--version] and no action flag
    prints the version and exits with EXIT_SUCCESS, and so does a run
    with [--help]. *)
Lemma main_version_without_action_counterexample :
  action_count (mkOptions false None None None None false false false None
                          false None false false true false) = 0
  /\ value (Sample.run None initial_selection
              (mkOptions false None None None None false false false None
                         false None false false true false))
     = Returned EXIT_SUCCESS
  /\ stderr_of (trace (Sample.run None initial_selection
                         (mkOptions false None None None None false false
                                    false None false None
                                    false false true false)))
     = []
  /\ Sample.run None initial_selection
       (mkOptions false None None None None false false false None
                  false None false false false true)
     = (Returned EXIT_SUCCESS, [EvPrint "Usage:"]).
Proof. repeat split. Qed.

Lemma main_action_count_witness :
  Sample.run None initial_selection initial_options
  = (Returned EXIT_FAILURE,
     [EvLogSetHandler None; EvLogSetHandler (Some "Qmi");
      EvPrintErr ("error: no actions specified" ++ nl)%string])
  /\ Sample.run None initial_selection
       (mkOptions true None None None None false false false None
                  true (Some ["fw.cwe"]) false false false false)
     = (Returned EXIT_FAILURE,
        [EvLogSetHandler None; EvLogSetHandler (Some "Qmi");
         EvPrintErr ("error: too many actions specified" ++ nl)%string]).
Proof.
  split.
  - apply (proj1 (main_action_count (env := Sample.environment)
                    initial_selection initial_options eq_refl eq_refl)).
    reflexivity.
  - apply (proj1 (proj2 (main_action_count (env := Sample.environment)
                    initial_selection
                    (mkOptions true None None None None false false false None
                               true (Some ["fw.cwe"]) false false false false)
                    eq_refl eq_refl))).
    reflexivity.
Defined.

(** C6, as stated, fails: with no image and no action flag, or two
    action flags, the error is the one about the actions; and with no
    image, [--verify] and [--version] the run prints the version and
    exits with EXIT_SUCCESS. *)
Lemma main_no_images_invalid_actions_counterexample :
  image_strv initial_options = None
  /\ Sample.run None initial_selection initial_options
     = (Returned EXIT_FAILURE,
        [EvLogSetHandler None; EvLogSetHandler (Some "Qmi");
         EvPrintErr ("error: no actions specified" ++ nl)%string])
  /\ Sample.run None initial_selection
       (mkOptions true None None None None false false false None
                  true None false false false false)
     = (Returned EXIT_FAILURE,
        [EvLogSetHandler None; EvLogSetHandler (Some "Qmi");
         EvPrintErr ("error: too many actions specified" ++ nl)%string])
  /\ value (Sample.run None initial_selection
              (mkOptions false None None None None false false false None
                         true None false false true false))
     = Returned EXIT_SUCCESS.
Proof. repeat split. Qed.

Lemma main_no_images_witness :
  Sample.run None initial_selection
    (mkOptions false None None None None false false false None
               true None false false false false)
  = (Returned EXIT_FAILURE,
     [EvLogSetHandler None; EvLogSetHandler (Some "Qmi");
      EvPrintErr ("error: no firmware images specified" ++ nl)%string])
  /\ stderr_of (trace (Sample.run None initial_selection initial_options))
     = [("error: no actions specified" ++ nl)%string].
Proof.
  split.
  - apply (proj1 (main_no_images (env := Sample.environment)
                    initial_selection
                    (mkOptions false None None None None false false false None
                               true None false false false false)
                    eq_refl eq_refl eq_refl)).
    reflexivity.
  - apply (proj1 (proj2 (main_no_images (env := Sample.environment)
                    initial_selection initial_options
                    eq_refl eq_refl eq_refl))).
    reflexivity.
Defined.

Lemma select_path_algorithm_witness :
  Sample.resolve (Some "/dev/ttyUSB0") QFU_UDEV_HELPER_DEVICE_TYPE_TTY
                 initial_selection
  = (Some "/dev/ttyUSB0", [])
  /\ Sample.resolve None QFU_UDEV_HELPER_DEVICE_TYPE_CDC_WDM
                    (mkSelection 0 0 1 0)
     = (None,
        [EvFindByDeviceInfo 1 0 0 0;
         EvPrintErr ("error: device not found" ++ nl)%string])
  /\ Sample.resolve None QFU_UDEV_HELPER_DEVICE_TYPE_TTY
                    (mkSelection 0 0 4505 36977)
     = (None,
        [EvFindByDeviceInfo 4505 36977 0 0;
         EvListDevices QFU_UDEV_HELPER_DEVICE_TYPE_TTY "/sys/bus/usb/devices/1-2";
         EvPrintErr ("error: no devices found in sysfs path: /sys/bus/usb/devices/1-2"
                     ++ nl)%string])
  /\ operations_of
       (trace (Sample.run None (mkSelection 0 0 4505 36977)
                 (mkOptions false None None None None false false
                            true None false (Some ["fw.cwe"])
                            false false false false)))
     = []
  /\ Sample.resolve None QFU_UDEV_HELPER_DEVICE_TYPE_CDC_WDM
                    (mkSelection 0 0 4505 36977)
     = (Some "/dev/cdc-wdm0",
        [EvFindByDeviceInfo 4505 36977 0 0;
         EvListDevices QFU_UDEV_HELPER_DEVICE_TYPE_CDC_WDM
                       "/sys/bus/usb/devices/1-2"]).
Proof.
  split; [|split; [|split; [|split]]].
  - apply (proj1 (select_path_algorithm (env := Sample.environment)
                    QFU_UDEV_HELPER_DEVICE_TYPE_TTY initial_selection));
      reflexivity.
  - apply (proj1 (proj2 (select_path_algorithm (env := Sample.environment)
                           QFU_UDEV_HELPER_DEVICE_TYPE_CDC_WDM
                           (mkSelection 0 0 1 0))
                        (or_intror (conj eq_refl eq_refl)))).
    reflexivity.
  - apply (proj1 (proj1 (proj2 (proj2 (select_path_algorithm
                           (env := Sample.environment)
                           QFU_UDEV_HELPER_DEVICE_TYPE_TTY
                           (mkSelection 0 0 4505 36977))
                        (or_intror (conj eq_refl eq_refl)))
                     "/sys/bus/usb/devices/1-2" eq_refl) eq_refl)).
  - apply (proj2 (proj1 (proj2 (proj2 (select_path_algorithm
                           (env := Sample.environment)
                           QFU_UDEV_HELPER_DEVICE_TYPE_TTY
                           (mkSelection 0 0 4505 36977))
                        (or_intror (conj eq_refl eq_refl)))
                     "/sys/bus/usb/devices/1-2" eq_refl) eq_refl)
             (mkOptions false None None None None false false
                        true None false (Some ["fw.cwe"])
                        false false false false)
             ["fw.cwe"] eq_refl).
    right. repeat split.
  - apply (proj2 (proj2 (proj2 (select_path_algorithm
                           (env := Sample.environment)
                           QFU_UDEV_HELPER_DEVICE_TYPE_CDC_WDM
                           (mkSelection 0 0 4505 36977))
                        (or_intror (conj eq_refl eq_refl)))
                     "/sys/bus/usb/devices/1-2" eq_refl)
             "/dev/cdc-wdm0" []).
    reflexivity.
Defined.

(** The run [--update --vid-pid 1199:9071 fw.cwe]. *)
Lemma main_dispatch_binding_witness :
  (Sample.run None (mkSelection 0 0 4505 36977)
     (mkOptions true None None None None false false false None false
                (Some ["fw.cwe"]) false false false false)
   = (Returned EXIT_SUCCESS,
      [EvLogSetHandler None; EvLogSetHandler (Some "Qmi");
       EvFindByDeviceInfo 4505 36977 0 0;
       EvListDevices QFU_UDEV_HELPER_DEVICE_TYPE_CDC_WDM "/sys/bus/usb/devices/1-2";
       EvDebug "using cdc-wdm device: /dev/cdc-wdm0";
       EvUpdateRun ["fw.cwe"] "/dev/cdc-wdm0" None None None false false])
   /\ operations_of
        (trace (Sample.run None (mkSelection 0 0 4505 36977)
                  (mkOptions true None None None None false false false None
                             false (Some ["fw.cwe"]) false false false false)))
      = [EvUpdateRun ["fw.cwe"] "/dev/cdc-wdm0" None None None false false])
  /\ (Sample.run None initial_selection
        (mkOptions false None None None None false false true
                   (Some "/dev/ttyUSB0") false (Some ["fw.cwe"])
                   false false false false)
      = (Returned EXIT_SUCCESS,
         [EvLogSetHandler None; EvLogSetHandler (Some "Qmi");
          EvDebug "using tty device: /dev/ttyUSB0";
          EvUpdateQdlRun ["fw.cwe"] "/dev/ttyUSB0"])
      /\ operations_of
           (trace (Sample.run None initial_selection
                     (mkOptions false None None None None false false true
                                (Some "/dev/ttyUSB0") false (Some ["fw.cwe"])
                                false false false false)))
         = [EvUpdateQdlRun ["fw.cwe"] "/dev/ttyUSB0"]).
Proof.
  split.
  - exact (proj1 (main_dispatch_binding (env := Sample.environment)
                    (mkSelection 0 0 4505 36977)
                    (mkOptions true None None None None false false false None
                               false (Some ["fw.cwe"]) false false false false)
                    ["fw.cwe"] eq_refl) eq_refl).
  - exact (proj2 (main_dispatch_binding (env := Sample.environment)
                    initial_selection
                    (mkOptions false None None None None false false true
                               (Some "/dev/ttyUSB0") false (Some ["fw.cwe"])
                               false false false false)
                    ["fw.cwe"] eq_refl) eq_refl).
Defined.

(** The run [--verify file1.cwe file2.nvu]. *)
Lemma main_verify_offline_witness :
  Sample.run None initial_selection
    (mkOptions false None None None None false false false None true
               (Some ["file1.cwe"; "file2.nvu"]) false false false false)
  = (Returned EXIT_SUCCESS,
     [EvLogSetHandler None; EvLogSetHandler (Some "Qmi");
      EvVerifyRun ["file1.cwe"; "file2.nvu"]]).
Proof.
  apply (main_verify_offline (env := Sample.environment)
           (mkOptions false None None None None false false false None true
                      (Some ["file1.cwe"; "file2.nvu"])
                      false false false false)
           ["file1.cwe"; "file2.nvu"]);
    reflexivity.
Defined.

(** The run [--verify --device /dev/cdc-wdm0 --vid-pid 1199:9071
    --busnum-devnum 1:2 fw.cwe]. *)
Lemma main_verify_skips_exclusivity_witness :
  stderr_of
    (trace (Sample.run None (mkSelection 1 2 4505 36977)
              (mkOptions false (Some "/dev/cdc-wdm0") None None None false false
                         false None true (Some ["fw.cwe"])
                         false false false false)))
  = []
  /\ value (Sample.run None (mkSelection 1 2 4505 36977)
              (mkOptions false (Some "/dev/cdc-wdm0") None None None false false
                         false None true (Some ["fw.cwe"])
                         false false false false))
     = Returned EXIT_SUCCESS.
Proof.
  destruct (main_verify_skips_exclusivity (env := Sample.environment)
              (mkSelection 1 2 4505 36977)
              (mkOptions false (Some "/dev/cdc-wdm0") None None None false false
                         false None true (Some ["fw.cwe"])
                         false false false false)
              ["fw.cwe"] eq_refl eq_refl) as (Herr & _ & _ & Hexit).
  split; [exact Herr | exact (Hexit eq_refl)].
Defined.

(** * Further properties of the callbacks *)

Lemma g_strsplit_no_field (s : string) :
  g_strsplit s ":" (-1) = [] <-> s = EmptyString.
Proof.
  split; [|intros ->; reflexivity].
  unfold g_strsplit.
  destruct (g_strsplit_loop _ s ":" _ []) as [tokens remainder].
  destruct s; [reflexivity|]. intros H. destruct tokens; discriminate H.
Qed.

(** Every way [parse_busnum_devnum] can end. *)
Lemma parse_busnum_devnum_cases (value : string) (g : Selection) :
  (value = EmptyString /\ parse_busnum_devnum value g = Aborted)
  \/ (value <> EmptyString /\
      ((exists message,
           parse_busnum_devnum value g
           = Returned (mkReturn false (Some message) g))
       \/ (exists bus message,
              0 < bus <= G_MAXUINT
              /\ parse_busnum_devnum value g
                 = Returned (mkReturn false (Some message) (set_busnum bus g)))
       \/ (exists dev,
              0 < dev <= G_MAXUINT
              /\ parse_busnum_devnum value g
                 = Returned (mkReturn true None (set_devnum dev g)))
       \/ (exists bus dev,
              0 < bus <= G_MAXUINT /\ 0 < dev <= G_MAXUINT
              /\ parse_busnum_devnum value g
                 = Returned (mkReturn true None
                               (set_devnum dev (set_busnum bus g)))))).
Proof.
  destruct (g_strsplit value ":" (-1)) as [|f0 [|f1 [|f2 rest]]] eqn:Hs.
  - left. split; [apply g_strsplit_no_field; exact Hs|].
    apply parse_busnum_devnum_no_field; exact Hs.
  - right. split; [intros ->; discriminate Hs|].
    rewrite (parse_busnum_devnum_one_field _ _ _ Hs).
    destruct (out_of_range (strtoul f0 10) G_MAXUINT) eqn:Hd.
    + left. eexists. reflexivity.
    + right; right; left. apply out_of_range_strtoul in Hd.
      exists (strtoul f0 10). rewrite to_guint_small by lia. auto.
  - right. split; [intros ->; discriminate Hs|].
    rewrite (parse_busnum_devnum_two_fields _ _ _ _ Hs).
    destruct (out_of_range (strtoul f0 10) G_MAXUINT) eqn:Hb.
    + left. eexists. reflexivity.
    + apply out_of_range_strtoul in Hb. rewrite (to_guint_small (strtoul f0 10)) by lia.
      destruct (out_of_range (strtoul f1 10) G_MAXUINT) eqn:Hd.
      * right; left. exists (strtoul f0 10). eexists. auto.
      * right; right; right. apply out_of_range_strtoul in Hd.
        exists (strtoul f0 10), (strtoul f1 10).
        rewrite to_guint_small by lia. auto.
  - right. split; [intros ->; discriminate Hs|].
    rewrite (parse_busnum_devnum_more_fields _ _ _ _ _ _ Hs).
    left. eexists. reflexivity.
Qed.

(** Every way [parse_vid_pid] can end. *)
Lemma parse_vid_pid_cases (value : string) (g : Selection) :
  (value = EmptyString /\ parse_vid_pid value g = Aborted)
  \/ (value <> EmptyString /\
      ((exists message,
           parse_vid_pid value g = Returned (mkReturn false (Some message) g))
       \/ (exists p message,
              0 < p <= G_MAXUINT16
              /\ parse_vid_pid value g
                 = Returned (mkReturn false (Some message) (set_pid p g)))
       \/ (exists v,
              0 < v <= G_MAXUINT16
              /\ parse_vid_pid value g
                 = Returned (mkReturn true None (set_vid v g)))
       \/ (exists v p,
              0 < v <= G_MAXUINT16 /\ 0 < p <= G_MAXUINT16
              /\ parse_vid_pid value g
                 = Returned (mkReturn true None (set_vid v (set_pid p g)))))).
Proof.
  assert (Hw : forall x, 0 < x <= G_MAXUINT16 -> to_guint16 (to_guint x) = x).
  { intros x Hx. rewrite to_guint_small by (unfold G_MAXUINT16, G_MAXUINT in *; lia).
    apply to_guint16_small; lia. }
  destruct (g_strsplit value ":" (-1)) as [|f0 [|f1 [|f2 rest]]] eqn:Hs.
  - left. split; [apply g_strsplit_no_field; exact Hs|].
    apply parse_vid_pid_no_field; exact Hs.
  - right. split; [intros ->; discriminate Hs|].
    rewrite (parse_vid_pid_one_field _ _ _ Hs).
    destruct (out_of_range (strtoul f0 16) G_MAXUINT16) eqn:Hd.
    + left. eexists. reflexivity.
    + right; right; left. apply out_of_range_strtoul in Hd.
      exists (strtoul f0 16). rewrite to_guint16_small by lia. auto.
  - right. split; [intros ->; discriminate Hs|].
    rewrite (parse_vid_pid_two_fields _ _ _ _ Hs).
    destruct (out_of_range (strtoul f1 16) G_MAXUINT16) eqn:Hb.
    + left. eexists. reflexivity.
    + apply out_of_range_strtoul in Hb. rewrite (Hw _ Hb).
      destruct (out_of_range (strtoul f0 16) G_MAXUINT16) eqn:Hd.
      * right; left. exists (strtoul f1 16). eexists. auto.
      * right; right; right. apply out_of_range_strtoul in Hd.
        exists (strtoul f0 16), (strtoul f1 16).
        rewrite to_guint16_small by lia. auto.
  - right. split; [intros ->; discriminate Hs|].
    rewrite (parse_vid_pid_more_fields _ _ _ _ _ _ Hs).
    left. eexists. reflexivity.
Qed.

(** X1.  The callbacks die on the [g_assert] for the empty string and
    for no other value: every non-empty value makes them return. *)
Theorem parse_aborts_only_on_empty (value : string) (g : Selection) :
  (parse_busnum_devnum value g = Aborted <-> value = EmptyString)
  /\ (parse_vid_pid value g = Aborted <-> value = EmptyString).
Proof.
  split; split.
  - intros H.
    destruct (parse_busnum_devnum_cases value g)
      as [[Hv _]|[_ [[m E]|[(b & m & _ & E)|[(d & _ & E)|(b & d & _ & _ & E)]]]]];
      [exact Hv | rewrite E in H; discriminate H ..].
  - intros ->. reflexivity.
  - intros H.
    destruct (parse_vid_pid_cases value g)
      as [[Hv _]|[_ [[m E]|[(b & m & _ & E)|[(d & _ & E)|(b & d & _ & _ & E)]]]]];
      [exact Hv | rewrite E in H; discriminate H ..].
  - intros ->. reflexivity.
Qed.

(** X2.  [parse_busnum_devnum] never touches [vid] and [pid], and
    [parse_vid_pid] never touches [busnum] and [devnum], whether they
    succeed or fail. *)
Theorem parse_frame (value : string) (g : Selection) (r : CallbackReturn) :
  (parse_busnum_devnum value g = Returned r ->
   vid (globals r) = vid g /\ pid (globals r) = pid g)
  /\ (parse_vid_pid value g = Returned r ->
      busnum (globals r) = busnum g /\ devnum (globals r) = devnum g).
Proof.
  split; intros H.
  - destruct (parse_busnum_devnum_cases value g)
      as [[_ E]|[_ [[m E]|[(b & m & _ & E)|[(d & _ & E)|(b & d & _ & _ & E)]]]]];
      rewrite E in H; [discriminate H|..]; injection H as <-; split; reflexivity.
  - destruct (parse_vid_pid_cases value g)
      as [[_ E]|[_ [[m E]|[(b & m & _ & E)|[(d & _ & E)|(b & d & _ & _ & E)]]]]];
      rewrite E in H; [discriminate H|..]; injection H as <-; split; reflexivity.
Qed.

Lemma parse_frame_witness :
  vid (mkSelection 3 4 4505 36977) = 4505 /\ pid (mkSelection 3 4 4505 36977) = 36977.
Proof.
  apply (proj1 (parse_frame "3:4" (mkSelection 0 0 4505 36977)
                  (mkReturn true None (mkSelection 3 4 4505 36977)))).
  reflexivity.
Defined.

(** X3.  The callbacks keep the [GError] convention: they return TRUE
    with no error set or FALSE with an error set, never anything else. *)
Theorem parse_error_convention (value : string) (g : Selection)
        (r : CallbackReturn) :
  parse_busnum_devnum value g = Returned r \/ parse_vid_pid value g = Returned r ->
  (result r = true /\ error r = None)
  \/ (result r = false /\ exists message, error r = Some message).
Proof.
  intros [H|H].
  - destruct (parse_busnum_devnum_cases value g)
      as [[_ E]|[_ [[m E]|[(b & m & _ & E)|[(d & _ & E)|(b & d & _ & _ & E)]]]]];
      rewrite E in H; [discriminate H|..]; injection H as <-; cbn; eauto.
  - destruct (parse_vid_pid_cases value g)
      as [[_ E]|[_ [[m E]|[(b & m & _ & E)|[(d & _ & E)|(b & d & _ & _ & E)]]]]];
      rewrite E in H; [discriminate H|..]; injection H as <-; cbn; eauto.
Qed.

Lemma parse_error_convention_witness :
  (false = true /\ Some "invalid dev number: abc" = None)
  \/ (false = false /\ exists message, Some "invalid dev number: abc" = Some message).
Proof.
  apply (parse_error_convention "abc" initial_selection
           (mkReturn false (Some "invalid dev number: abc") initial_selection)).
  left. reflexivity.
Defined.

(** X4.  When a callback returns TRUE the identifier it is named after
    is set to a legal value: [devnum] in 1..G_MAXUINT after
    [parse_busnum_devnum], [vid] in 1..0xFFFF after [parse_vid_pid];
    the optional one ([busnum], [pid]) is either as before or also such a
    value. *)
Theorem parse_success_sets_identifier (value : string) (g : Selection)
        (r : CallbackReturn) :
  (parse_busnum_devnum value g = Returned r -> result r = true ->
   0 < devnum (globals r) <= G_MAXUINT
   /\ (busnum (globals r) = busnum g \/ 0 < busnum (globals r) <= G_MAXUINT))
  /\ (parse_vid_pid value g = Returned r -> result r = true ->
      0 < vid (globals r) <= G_MAXUINT16
      /\ (pid (globals r) = pid g \/ 0 < pid (globals r) <= G_MAXUINT16)).
Proof.
  split; intros H Hr.
  - destruct (parse_busnum_devnum_cases value g)
      as [[_ E]|[_ [[m E]|[(b & m & _ & E)|[(d & Hd & E)|(b & d & Hb & Hd & E)]]]]];
      rewrite E in H; [discriminate H|..]; injection H as <-;
      try discriminate Hr; cbn; auto.
  - destruct (parse_vid_pid_cases value g)
      as [[_ E]|[_ [[m E]|[(b & m & _ & E)|[(d & Hd & E)|(b & d & Hb & Hd & E)]]]]];
      rewrite E in H; [discriminate H|..]; injection H as <-;
      try discriminate Hr; cbn; auto.
Qed.

Lemma parse_success_sets_identifier_witness :
  0 < devnum (mkSelection 7 12 0 0) <= G_MAXUINT
  /\ (busnum (mkSelection 7 12 0 0) = busnum (mkSelection 7 9 0 0)
      \/ 0 < busnum (mkSelection 7 12 0 0) <= G_MAXUINT).
Proof.
  apply (proj1 (parse_success_sets_identifier "12" (mkSelection 7 9 0 0)
                  (mkReturn true None (mkSelection 7 12 0 0))));
    reflexivity.
Defined.

(** X5.  The callbacks keep the selection variables within their C
    types and never unset one: a variable that is non-zero before the
    call is non-zero after it, whatever the value parsed and whether the
    call succeeds or fails. *)
Theorem parse_keeps_selection_set (value : string) (g : Selection)
        (r : CallbackReturn) :
  parse_busnum_devnum value g = Returned r \/ parse_vid_pid value g = Returned r ->
  (within_types g -> within_types (globals r))
  /\ (busnum g <> 0 -> busnum (globals r) <> 0)
  /\ (devnum g <> 0 -> devnum (globals r) <> 0)
  /\ (vid g <> 0 -> vid (globals r) <> 0)
  /\ (pid g <> 0 -> pid (globals r) <> 0).
Proof.
  unfold within_types.
  intros [H|H].
  - destruct (parse_busnum_devnum_cases value g)
      as [[_ E]|[_ [[m E]|[(b & m & Hb & E)|[(d & Hd & E)|(b & d & Hb & Hd & E)]]]]];
      rewrite E in H; [discriminate H|..]; injection H as <-; cbn;
      repeat split; intros; try tauto; lia.
  - destruct (parse_vid_pid_cases value g)
      as [[_ E]|[_ [[m E]|[(b & m & Hb & E)|[(d & Hd & E)|(b & d & Hb & Hd & E)]]]]];
      rewrite E in H; [discriminate H|..]; injection H as <-; cbn;
      repeat split; intros; try tauto; lia.
Qed.

Lemma parse_keeps_selection_set_witness :
  (within_types (mkSelection 3 4 0 0) -> within_types (mkSelection 5 4 0 0))
  /\ (busnum (mkSelection 3 4 0 0) <> 0 -> busnum (mkSelection 5 4 0 0) <> 0)
  /\ (devnum (mkSelection 3 4 0 0) <> 0 -> devnum (mkSelection 5 4 0 0) <> 0)
  /\ (vid (mkSelection 3 4 0 0) <> 0 -> vid (mkSelection 5 4 0 0) <> 0)
  /\ (pid (mkSelection 3 4 0 0) <> 0 -> pid (mkSelection 5 4 0 0) <> 0).
Proof.
  apply (parse_keeps_selection_set "5:0" (mkSelection 3 4 0 0)
           (mkReturn false (Some "invalid dev number: 0") (mkSelection 5 4 0 0))).
  left. reflexivity.
Defined.

(** ** Fields and colons *)

Lemma contains_count (c : ascii) (s : string) :
  contains c s = false <-> count_char c s = O.
Proof.
  induction s as [|c' rest IH]; simpl; [tauto|].
  destruct (Ascii.eqb c' c); simpl; [split; [discriminate | lia] | exact IH].
Qed.

Lemma split_first_colon (s : string) :
  contains ":" s = true ->
  exists b d, s = (b ++ String ":" d)%string /\ contains ":" b = false.
Proof.
  induction s as [|c rest IH]; cbn [contains]; [discriminate|].
  destruct (Ascii.eqb_spec c ":") as [->|Hc].
  - intros _. exists EmptyString, rest. split; reflexivity.
  - cbn [orb]. intros H. destruct (IH H) as (b & d & -> & Hb).
    exists (String c b), d. split; [reflexivity|].
    cbn [contains]. rewrite Hb.
    destruct (Ascii.eqb_spec c ":"); [contradiction | reflexivity].
Qed.

Lemma count_char_first_colon (b d : string) :
  contains ":" b = false ->
  count_char ":" (b ++ String ":" d) = S (count_char ":" d).
Proof.
  induction b as [|c rest IH]; cbn [contains count_char append].
  - intros _. rewrite Ascii.eqb_refl. reflexivity.
  - intros H. apply orb_false_iff in H as [Hc Hr].
    rewrite Hc, (IH Hr). reflexivity.
Qed.

Lemma g_strsplit_loop_extends (fuel : nat) (remainder delimiter : string)
      (max_tokens : Z) (tokens : list string) :
  exists more,
    fst (g_strsplit_loop fuel remainder delimiter max_tokens tokens)
    = tokens ++ more.
Proof.
  revert remainder max_tokens tokens.
  induction fuel as [|fuel IH]; intros rem mt toks; cbn [g_strsplit_loop].
  - exists []. cbn. now rewrite app_nil_r.
  - destruct (mt - 1 =? 0); [exists []; cbn; now rewrite app_nil_r|].
    destruct (strstr rem delimiter) as [[token found]|];
      [|exists []; cbn; now rewrite app_nil_r].
    destruct (IH (advance (String.length delimiter) found) (mt - 1)
                 (toks ++ [token])) as [more Hm].
    exists (token :: more). rewrite Hm, <- app_assoc. reflexivity.
Qed.

Lemma g_strsplit_loop_step (fuel : nat) (remainder delimiter : string)
      (max_tokens : Z) (tokens : list string) (token found : string) :
  max_tokens - 1 <> 0 ->
  strstr remainder delimiter = Some (token, found) ->
  g_strsplit_loop (S fuel) remainder delimiter max_tokens tokens
  = g_strsplit_loop fuel (advance (String.length delimiter) found) delimiter
                    (max_tokens - 1) (tokens ++ [token]).
Proof.
  intros Hm Hs. cbn [g_strsplit_loop].
  destruct (Z.eqb_spec (max_tokens - 1) 0); [contradiction|].
  rewrite Hs. reflexivity.
Qed.

Lemma g_strsplit_three_fields (b d e : string) :
  contains ":" b = false -> contains ":" d = false ->
  exists f2 rest,
    g_strsplit (b ++ String ":" (d ++ String ":" e)) ":" (-1)
    = b :: d :: f2 :: rest.
Proof.
  intros Hb Hd. unfold g_strsplit. cbn [Z.ltb Z.compare]. cbv iota.
  erewrite g_strsplit_loop_step;
    [ | unfold G_MAXINT; lia | apply strstr_colon_app; exact Hb ].
  cbn [advance String.length].
  assert (Hfuel : exists k, String.length (b ++ String ":" (d ++ String ":" e)) = S k).
  { rewrite length_append. simpl. exists (String.length b + String.length (d ++ String ":" e))%nat. lia. }
  destruct Hfuel as [k ->].
  erewrite g_strsplit_loop_step;
    [ | unfold G_MAXINT; lia | apply strstr_colon_app; exact Hd ].
  cbn [advance String.length app].
  match goal with
  | |- context [g_strsplit_loop ?f ?r ?dl ?m ?t] =>
      destruct (g_strsplit_loop_extends f r dl m t) as [more Hm];
      destruct (g_strsplit_loop f r dl m t) as [tokens remainder]
  end.
  cbn [fst] in Hm. subst tokens.
  destruct b; cbn [append].
  - destruct more as [|f2 rest]; cbn; eauto.
  - destruct more as [|f2 rest]; cbn; eauto.
Qed.

Lemma g_strsplit_by_colons (s : string) :
  s <> EmptyString ->
  match count_char ":" s with
  | O => g_strsplit s ":" (-1) = [s]
  | S O => exists b d, g_strsplit s ":" (-1) = [b; d]
  | S (S _) => exists f0 f1 f2 rest, g_strsplit s ":" (-1) = f0 :: f1 :: f2 :: rest
  end.
Proof.
  intros Hne.
  destruct (contains ":" s) eqn:Hc.
  - destruct (split_first_colon s Hc) as (b & d & -> & Hb).
    rewrite (count_char_first_colon _ _ Hb).
    destruct (contains ":" d) eqn:Hd.
    + destruct (split_first_colon d Hd) as (d1 & e & -> & Hd1).
      rewrite (count_char_first_colon _ _ Hd1).
      destruct (g_strsplit_three_fields b d1 e Hb Hd1) as (f2 & rest & ->).
      eauto.
    + rewrite (proj1 (contains_count _ _) Hd).
      exists b, d. apply g_strsplit_two_fields; assumption.
  - rewrite (proj1 (contains_count _ _) Hc).
    apply g_strsplit_one_field; assumption.
Qed.

(** X6.  On a non-empty value the callbacks report "too many fields"
    exactly when the value holds two or more colons, and then leave the
    selection variables as they were. *)
Theorem parse_too_many_fields (value : string) (g : Selection) :
  value <> EmptyString ->
  ((2 <= count_char ":" value)%nat <->
   parse_busnum_devnum value g
   = Returned (mkReturn false
                 (Some "invalid busnum-devnum string: too many fields") g))
  /\ ((2 <= count_char ":" value)%nat <->
      parse_vid_pid value g
      = Returned (mkReturn false
                    (Some "invalid vid-pid string: too many fields") g)).
Proof.
  intros Hne. pose proof (g_strsplit_by_colons value Hne) as Hs.
  destruct (count_char ":" value) as [|[|n]].
  - rewrite (parse_busnum_devnum_one_field _ _ _ Hs),
      (parse_vid_pid_one_field _ _ _ Hs).
    split; (split; [lia|]).
    + destruct (out_of_range _ _); intros H; exfalso; simpl in H; congruence.
    + destruct (out_of_range _ _); intros H; exfalso; simpl in H; congruence.
  - destruct Hs as (b & d & Hs).
    rewrite (parse_busnum_devnum_two_fields _ _ _ _ Hs),
      (parse_vid_pid_two_fields _ _ _ _ Hs).
    split; (split; [lia|]).
    + destruct (out_of_range (strtoul b 10) G_MAXUINT),
        (out_of_range (strtoul d 10) G_MAXUINT);
        intros H; exfalso; simpl in H; congruence.
    + destruct (out_of_range (strtoul d 16) G_MAXUINT16),
        (out_of_range (strtoul b 16) G_MAXUINT16);
        intros H; exfalso; simpl in H; congruence.
  - destruct Hs as (f0 & f1 & f2 & rest & Hs).
    rewrite (parse_busnum_devnum_more_fields _ _ _ _ _ _ Hs),
      (parse_vid_pid_more_fields _ _ _ _ _ _ Hs).
    split; (split; [reflexivity | lia]).
Qed.

Lemma parse_too_many_fields_witness :
  parse_busnum_devnum "1::2" (mkSelection 9 9 9 9)
  = Returned (mkReturn false
                (Some "invalid busnum-devnum string: too many fields")
                (mkSelection 9 9 9 9)).
Proof.
  apply (proj1 (parse_too_many_fields "1::2" (mkSelection 9 9 9 9)
                  ltac:(discriminate))).
  vm_compute. lia.
Defined.

(** ** What [strtoul] lets through *)

Lemma decimal_digit_stop (c : ascii) :
  decimal_digit c = None ->
  match digit_of c with Some d => d <? 10 | None => false end = false.
Proof.
  unfold decimal_digit, digit_of. generalize (code c); intros n.
  repeat match goal with
         | |- context [?a <=? ?b] => destruct (Z.leb_spec a b)
         end; cbn; try discriminate; intros _; try reflexivity;
    apply Z.ltb_ge; lia.
Qed.

Lemma hex_digit_stop (c : ascii) :
  hex_digit c = None ->
  match digit_of c with Some d => d <? 16 | None => false end = false.
Proof.
  unfold hex_digit, digit_of. generalize (code c); intros n.
  repeat match goal with
         | |- context [?a <=? ?b] => destruct (Z.leb_spec a b)
         end; cbn; try discriminate; intros _; try reflexivity;
    apply Z.ltb_ge; lia.
Qed.

Section NumeralsWithTail.

Variable digit : ascii -> option Z.
Variable base : Z.
Hypothesis digit_ok :
  forall c d, digit c = Some d -> digit_of c = Some d /\ 0 <= d < base.
Hypothesis digit_stop :
  forall c, digit c = None ->
            match digit_of c with Some d => d <? base | None => false end = false.

Lemma strtoul_digits_stop (t : string) (acc : Z) :
  begins_with_digit digit t = false -> strtoul_digits base t acc = acc.
Proof.
  destruct t as [|c t']; [reflexivity|]. cbn [begins_with_digit strtoul_digits].
  destruct (digit c) eqn:Hc; [discriminate|]. intros _.
  pose proof (digit_stop c Hc) as Hs.
  destruct (digit_of c); [rewrite Hs|]; reflexivity.
Qed.

Lemma strtoul_digits_tail (s t : string) (ds : list Z) (acc : Z) :
  numeral_digits digit s = Some ds ->
  begins_with_digit digit t = false ->
  strtoul_digits base (s ++ t) acc
  = acc * base ^ Z.of_nat (List.length ds) + positional_value base ds.
Proof.
  intros Hs Ht. revert ds acc Hs.
  induction s as [|c rest IH]; cbn [append numeral_digits]; intros ds acc H.
  - injection H as <-. rewrite (strtoul_digits_stop t acc Ht). simpl. lia.
  - destruct (digit c) as [d|] eqn:Hd; try discriminate.
    destruct (numeral_digits digit rest) as [ds'|]; try discriminate.
    injection H as <-. cbn [strtoul_digits].
    destruct (digit_ok _ _ Hd) as [-> Hr].
    replace (d <? base) with true by (symmetry; apply Z.ltb_lt; lia).
    rewrite (IH ds' _ eq_refl).
    cbn [List.length positional_value].
    rewrite Nat2Z.inj_succ, Z.pow_succ_r by lia.
    ring.
Qed.

End NumeralsWithTail.

Lemma skip_spaces_app (ws s : string) :
  all_spaces ws = true -> skip_spaces (ws ++ s) = skip_spaces s.
Proof.
  induction ws as [|c rest IH]; cbn [all_spaces append]; [reflexivity|].
  intros H. apply andb_true_iff in H as [Hc Hr].
  cbn [skip_spaces]. rewrite Hc. exact (IH Hr).
Qed.

Lemma contains_append (c : ascii) (s t : string) :
  contains c (s ++ t) = contains c s || contains c t.
Proof.
  induction s as [|c' rest IH]; cbn [contains append]; [reflexivity|].
  rewrite IH. apply orb_assoc.
Qed.

Lemma all_spaces_no_colon (ws : string) :
  all_spaces ws = true -> contains ":" ws = false.
Proof.
  induction ws as [|c rest IH]; cbn [all_spaces contains]; [reflexivity|].
  intros H. apply andb_true_iff in H as [Hc Hr]. rewrite (IH Hr), orb_false_r.
  destruct (Ascii.eqb_spec c ":") as [->|]; [discriminate Hc | reflexivity].
Qed.

(** The text of an optional sign. *)
Lemma strtoul_after_blanks_and_plus (ws s : string) (plus : bool) (base : Z)
      (c : ascii) (rest : string) :
  all_spaces ws = true -> s = String c rest -> hex_digit c <> None ->
  strtoul (ws ++ (if plus then "+" else "") ++ s) base
  = let s2 := if base =? 16 then strip_0x s else s in
    let i := strtoul_digits base s2 0 in
    if ULONG_MAX <? i then ULONG_MAX else i.
Proof.
  intros Hws -> Hc.
  destruct (hex_digit_plain c Hc) as (Hs & Hm & Hp & _).
  unfold strtoul. rewrite (skip_spaces_app _ _ Hws).
  destruct plus; cbn [append skip_spaces].
  - change (isspace "+") with false. cbv iota. cbn [strip_sign].
    change (Ascii.eqb "+" "-") with false. change (Ascii.eqb "+" "+") with true.
    cbv iota. reflexivity.
  - rewrite Hs. cbn [strip_sign]. rewrite Hm, Hp. reflexivity.
Qed.

Lemma append_not_empty (a b : string) :
  b <> EmptyString -> (a ++ b)%string <> EmptyString.
Proof. destruct a; cbn [append]; [trivial | discriminate]. Qed.

Lemma strip_0x_hex_numeral_tail (v t : string) (n : Z) :
  hex_value v = Some n -> 0 < n -> strip_0x (v ++ t) = (v ++ t)%string.
Proof.
  intros Hv Hn.
  destruct (numeral_value_digits _ _ _ _ Hv) as (c0 & rest & ds & -> & Hd & -> & _).
  destruct rest as [|c1 rest'].
  - cbn [append]. destruct t as [|c1 t']; [reflexivity|].
    unfold strip_0x.
    destruct (Ascii.eqb_spec c0 "0") as [->|]; [|reflexivity].
    exfalso. cbn in Hd. injection Hd as <-. cbn in Hn. lia.
  - destruct (numeral_digits_head _ _ _ _ Hd) as [_ [ds' Hr]].
    destruct (numeral_digits_head _ _ _ _ Hr) as [Hc1 _].
    destruct (hex_digit_plain c1 Hc1) as (_ & _ & _ & _ & Hx & HX).
    cbn [append]. unfold strip_0x. rewrite Hx, HX, andb_false_r. reflexivity.
Qed.

(** X7.  [parse_busnum_devnum] reads a field the way [strtoul] does:
    white space and a plus sign before the number and any text after it
    that does not begin with a decimal digit are let through; the value
    is that of the digits alone. *)
Theorem parse_busnum_devnum_lenient (ws dev t : string) (plus : bool)
        (n : Z) (g : Selection) :
  all_spaces ws = true ->
  decimal_value dev = Some n -> 0 < n <= G_MAXUINT ->
  begins_with_digit decimal_digit t = false -> contains ":" t = false ->
  parse_busnum_devnum (ws ++ (if plus then "+" else "") ++ dev ++ t) g
  = Returned (mkReturn true None (set_devnum n g)).
Proof.
  intros Hws Hv Hn Ht Hct.
  destruct (decimal_numeral_no_colon _ _ Hv) as [Hne Hcd].
  destruct (numeral_value_digits _ _ _ _ Hv) as (c & rest & ds & Hdev & Hd & Hval & Hc).
  set (value := (ws ++ (if plus then "+" else "") ++ dev ++ t)%string).
  assert (Hvne : value <> EmptyString).
  { unfold value. apply append_not_empty, append_not_empty.
    subst dev. discriminate. }
  assert (Hvc : contains ":" value = false).
  { unfold value. rewrite !contains_append, (all_spaces_no_colon _ Hws), Hcd, Hct.
    destruct plus; reflexivity. }
  rewrite (parse_busnum_devnum_one_field _ _ _ (g_strsplit_one_field _ Hvne Hvc)).
  assert (Hs : strtoul value 10 = n).
  { unfold value.
    rewrite (strtoul_after_blanks_and_plus ws (dev ++ t) plus 10 c (rest ++ t));
      [ | exact Hws | subst dev; reflexivity
        | intros E; apply Hc; unfold decimal_digit, hex_digit in *;
          destruct ((48 <=? code c) && (code c <=? 57)); [discriminate E | reflexivity] ].
    cbv zeta. change (10 =? 16) with false. cbv iota.
    rewrite (strtoul_digits_tail decimal_digit 10 decimal_digit_of
               decimal_digit_stop _ _ _ 0 Hd Ht).
    simpl (0 * _ + _). rewrite <- Hval.
    destruct (Z.ltb_spec ULONG_MAX n); [unfold ULONG_MAX, G_MAXUINT in *; lia | reflexivity]. }
  rewrite Hs, out_of_range_false by exact Hn.
  rewrite to_guint_small by lia. reflexivity.
Qed.

Lemma parse_busnum_devnum_lenient_witness :
  parse_busnum_devnum "  +5abc" initial_selection
  = Returned (mkReturn true None (mkSelection 0 5 0 0)).
Proof.
  apply (parse_busnum_devnum_lenient "  " "5" "abc" true 5 initial_selection);
    try reflexivity.
  unfold G_MAXUINT; lia.
Defined.

(** X8.  [parse_vid_pid] lets through the same, and a [0x] or [0X]
    before the hexadecimal digits: "0x1199" selects vendor 0x1199. *)
Theorem parse_vid_pid_lenient (ws pre v t : string) (plus : bool)
        (n : Z) (g : Selection) :
  all_spaces ws = true ->
  pre = EmptyString \/ pre = "0x" \/ pre = "0X" ->
  hex_value v = Some n -> 0 < n <= G_MAXUINT16 ->
  begins_with_digit hex_digit t = false -> contains ":" t = false ->
  parse_vid_pid (ws ++ (if plus then "+" else "") ++ pre ++ v ++ t) g
  = Returned (mkReturn true None (set_vid n g)).
Proof.
  intros Hws Hpre Hv Hn Ht Hct.
  destruct (hex_numeral_value_no_colon _ _ Hv) as [Hne Hcv].
  destruct (numeral_value_digits _ _ _ _ Hv) as (c & rest & ds & Hvs & Hd & Hval & Hc).
  set (value := (ws ++ (if plus then "+" else "") ++ pre ++ v ++ t)%string).
  assert (Hvne : value <> EmptyString).
  { unfold value. do 3 apply append_not_empty. subst v. discriminate. }
  assert (Hvc : contains ":" value = false).
  { unfold value. rewrite !contains_append, (all_spaces_no_colon _ Hws), Hcv, Hct.
    destruct plus, Hpre as [-> | [-> | ->]]; reflexivity. }
  rewrite (parse_vid_pid_one_field _ _ _ (g_strsplit_one_field _ Hvne Hvc)).
  assert (Hdigits : strtoul_digits 16 (v ++ t) 0 = n).
  { rewrite (strtoul_digits_tail hex_digit 16 hex_digit_of hex_digit_stop
               _ _ _ 0 Hd Ht).
    simpl (0 * _ + _). symmetry; exact Hval. }
  assert (Hs : strtoul value 16 = n).
  { unfold value. destruct Hpre as [-> | [-> | ->]].
    - cbn [append].
      rewrite (strtoul_after_blanks_and_plus ws (v ++ t) plus 16 c (rest ++ t));
        [ | exact Hws | subst v; reflexivity | exact Hc ].
      cbv zeta. change (16 =? 16) with true. cbv iota.
      rewrite (strip_0x_hex_numeral_tail _ t _ Hv) by lia.
      rewrite Hdigits.
      destruct (Z.ltb_spec ULONG_MAX n);
        [unfold ULONG_MAX, G_MAXUINT16 in *; lia | reflexivity].
    - rewrite (strtoul_after_blanks_and_plus ws ("0x" ++ v ++ t) plus 16
                 "0" (String "x" (v ++ t)));
        [ | exact Hws | reflexivity | discriminate ].
      cbv zeta. change (16 =? 16) with true. cbv iota.
      change (strip_0x ("0x" ++ v ++ t)) with (v ++ t)%string.
      rewrite Hdigits.
      destruct (Z.ltb_spec ULONG_MAX n);
        [unfold ULONG_MAX, G_MAXUINT16 in *; lia | reflexivity].
    - rewrite (strtoul_after_blanks_and_plus ws ("0X" ++ v ++ t) plus 16
                 "0" (String "X" (v ++ t)));
        [ | exact Hws | reflexivity | discriminate ].
      cbv zeta. change (16 =? 16) with true. cbv iota.
      change (strip_0x ("0X" ++ v ++ t)) with (v ++ t)%string.
      rewrite Hdigits.
      destruct (Z.ltb_spec ULONG_MAX n);
        [unfold ULONG_MAX, G_MAXUINT16 in *; lia | reflexivity]. }
  rewrite Hs, out_of_range_false by exact Hn.
  rewrite to_guint16_small by lia. reflexivity.
Qed.

Lemma parse_vid_pid_lenient_witness :
  parse_vid_pid "0x1199" initial_selection
  = Returned (mkReturn true None (mkSelection 0 0 4505 0))
  /\ parse_vid_pid " 1199 (Sierra)" initial_selection
     = Returned (mkReturn true None (mkSelection 0 0 4505 0)).
Proof.
  split.
  - apply (parse_vid_pid_lenient "" "0x" "1199" "" false 4505 initial_selection);
      try reflexivity; [right; left; reflexivity | unfold G_MAXUINT16; lia].
  - apply (parse_vid_pid_lenient " " "" "1199" " (Sierra)" false 4505
             initial_selection);
      try reflexivity; [left; reflexivity | unfold G_MAXUINT16; lia].
Defined.

Lemma to_gulong_negated (n : Z) :
  0 < n <= ULONG_MAX -> to_gulong (- n) = ULONG_MAX + 1 - n.
Proof.
  intros H. unfold to_gulong.
  replace (- n) with ((ULONG_MAX + 1 - n) + (-1) * (ULONG_MAX + 1)) by ring.
  rewrite Z.mod_add by (unfold ULONG_MAX; lia).
  apply Z.mod_small. lia.
Qed.

Lemma strtoul_minus_decimal (s : string) (n : Z) :
  decimal_value s = Some n ->
  0 <= n
  /\ strtoul (String "-" s) 10
     = if ULONG_MAX <? n then ULONG_MAX else to_gulong (- n).
Proof.
  intros H.
  destruct (numeral_value_digits _ _ _ _ H) as (c & rest & ds & -> & Hd & -> & _).
  assert (Hb : 1 < 10) by lia.
  split; [exact (positional_value_nonneg decimal_digit 10 Hb decimal_digit_of _ _ Hd)|].
  unfold strtoul. cbn [skip_spaces]. change (isspace "-") with false. cbv iota.
  cbn [strip_sign]. change (Ascii.eqb "-" "-") with true. cbv iota.
  change (10 =? 16) with false. cbv iota.
  rewrite (strtoul_digits_numeral decimal_digit 10 decimal_digit_of _ _ 0 Hd).
  reflexivity.
Qed.

(** X9.  A minus sign is not refused as such: [strtoul] negates in
    [unsigned long].  "-N" is rejected when N is 0, when N does not
    exceed ULONG_MAX - G_MAXUINT, or when N exceeds ULONG_MAX; for the
    N in between it is accepted and [devnum] becomes ULONG_MAX + 1 - N. *)
Theorem parse_busnum_devnum_minus (dev : string) (n : Z) (g : Selection) :
  decimal_value dev = Some n ->
  (n <= ULONG_MAX - G_MAXUINT \/ ULONG_MAX < n ->
   parse_busnum_devnum (String "-" dev) g
   = Returned (mkReturn false
                 (Some ("invalid dev number: " ++ String "-" dev)%string) g))
  /\ (ULONG_MAX - G_MAXUINT < n <= ULONG_MAX ->
      parse_busnum_devnum (String "-" dev) g
      = Returned (mkReturn true None (set_devnum (ULONG_MAX + 1 - n) g))).
Proof.
  intros Hv.
  destruct (decimal_numeral_no_colon _ _ Hv) as [_ Hc].
  destruct (strtoul_minus_decimal _ _ Hv) as [Hn0 Hs].
  assert (Hsplit : g_strsplit (String "-" dev) ":" (-1) = [String "-" dev]).
  { apply g_strsplit_one_field; [discriminate|].
    cbn [contains]. rewrite Hc. reflexivity. }
  rewrite (parse_busnum_devnum_one_field _ _ _ Hsplit), Hs.
  split; intros Hn.
  - destruct (Z.ltb_spec ULONG_MAX n) as [Hbig|Hsmall].
    + rewrite out_of_range_true by (right; unfold ULONG_MAX, G_MAXUINT; lia).
      reflexivity.
    + destruct (Z.eq_dec n 0) as [->|Hnz].
      * reflexivity.
      * rewrite to_gulong_negated by lia.
        rewrite out_of_range_true
          by (right; unfold ULONG_MAX, G_MAXUINT in *; lia).
        reflexivity.
  - destruct (Z.ltb_spec ULONG_MAX n) as [Hbig|Hsmall]; [lia|].
    rewrite to_gulong_negated by (unfold ULONG_MAX, G_MAXUINT in *; lia).
    rewrite out_of_range_false by (unfold ULONG_MAX, G_MAXUINT in *; lia).
    rewrite to_guint_small by (unfold ULONG_MAX, G_MAXUINT in *; lia).
    reflexivity.
Qed.

Lemma parse_busnum_devnum_minus_witness :
  parse_busnum_devnum "-5" initial_selection
  = Returned (mkReturn false (Some "invalid dev number: -5") initial_selection)
  /\ parse_busnum_devnum "-18446744073709551615" initial_selection
     = Returned (mkReturn true None (mkSelection 0 1 0 0)).
Proof.
  split.
  - apply (proj1 (parse_busnum_devnum_minus "5" 5 initial_selection eq_refl)).
    left. unfold ULONG_MAX, G_MAXUINT. lia.
  - apply (proj2 (parse_busnum_devnum_minus "18446744073709551615"
                    18446744073709551615 initial_selection eq_refl)).
    unfold ULONG_MAX, G_MAXUINT. lia.
Defined.

(** * Further properties of resolution and dispatch *)

Lemma parse_busnum_devnum_success (value : string) (g : Selection)
      (r : CallbackReturn) :
  parse_busnum_devnum value g = Returned r -> result r = true ->
  devnum (globals r) <> 0
  /\ vid (globals r) = vid g /\ pid (globals r) = pid g.
Proof.
  intros H Hr.
  destruct (parse_busnum_devnum_cases value g)
    as [[_ E]|[_ [[m E]|[(b & m & _ & E)|[(d & Hd & E)|(b & d & Hb & Hd & E)]]]]];
    rewrite E in H; [discriminate H|..]; injection H as <-;
    try discriminate Hr; cbn; repeat split; lia.
Qed.

Lemma parse_vid_pid_success (value : string) (g : Selection)
      (r : CallbackReturn) :
  parse_vid_pid value g = Returned r -> result r = true ->
  vid (globals r) <> 0
  /\ busnum (globals r) = busnum g /\ devnum (globals r) = devnum g.
Proof.
  intros H Hr.
  destruct (parse_vid_pid_cases value g)
    as [[_ E]|[_ [[m E]|[(b & m & _ & E)|[(d & Hd & E)|(b & d & Hb & Hd & E)]]]]];
    rewrite E in H; [discriminate H|..]; injection H as <-;
    try discriminate Hr; cbn; repeat split; lia.
Qed.

Section ResolutionProperties.

Context {env : Environment}.

(** Every way [select_path] can end. *)
Lemma select_path_cases (manual : option string)
      (type : QfuUdevHelperDeviceType) (g : Selection) :
  (is_set manual = true /\ vid_pid_given g = true
   /\ select_path manual type g
      = (None,
         [EvPrintErr ("error: cannot specify device path and vid:pid lookup" ++ nl)%string]))
  \/ (is_set manual = true /\ vid_pid_given g = false
      /\ busnum_devnum_given g = true
      /\ select_path manual type g
         = (None,
            [EvPrintErr ("error: cannot specify device path and busnum:devnum lookup" ++ nl)%string]))
  \/ (manual = None /\ vid_pid_given g = true /\ busnum_devnum_given g = true
      /\ select_path manual type g
         = (None,
            [EvPrintErr ("error: cannot specify busnum:devnum and vid:pid lookups" ++ nl)%string]))
  \/ (exists path,
         manual = Some path /\ vid_pid_given g = false
         /\ busnum_devnum_given g = false
         /\ select_path manual type g = (Some path, []))
  \/ (manual = None /\ vid_pid_given g && busnum_devnum_given g = false
      /\ ((exists message,
              find_by_device_info (vid g) (pid g) (busnum g) (devnum g)
              = inr message
              /\ select_path manual type g
                 = (None,
                    [EvFindByDeviceInfo (vid g) (pid g) (busnum g) (devnum g);
                     EvPrintErr ("error: " ++ message ++ nl)%string]))
          \/ (exists sysfs_path,
                 find_by_device_info (vid g) (pid g) (busnum g) (devnum g)
                 = inl sysfs_path
                 /\ ((list_devices type sysfs_path = []
                      /\ select_path manual type g
                         = (None,
                            [EvFindByDeviceInfo (vid g) (pid g) (busnum g) (devnum g);
                             EvListDevices type sysfs_path;
                             EvPrintErr ("error: no devices found in sysfs path: "
                                         ++ sysfs_path ++ nl)%string]))
                     \/ (exists data rest,
                            list_devices type sysfs_path = data :: rest
                            /\ select_path manual type g
                               = (g_file_get_path data,
                                  [EvFindByDeviceInfo (vid g) (pid g) (busnum g) (devnum g);
                                   EvListDevices type sysfs_path])))))).
Proof.
  unfold select_path, vid_pid_given, busnum_devnum_given.
  destruct manual as [path|]; cbn [is_set andb].
  - destruct (nonzero (vid g) || nonzero (pid g)) eqn:Hv; [left; auto|].
    destruct (nonzero (busnum g) || nonzero (devnum g)) eqn:Hb;
      [right; left; auto|].
    cbn [andb]. right; right; right; left. exists path. auto.
  - destruct ((nonzero (vid g) || nonzero (pid g))
              && (nonzero (busnum g) || nonzero (devnum g))) eqn:Hc.
    + apply andb_true_iff in Hc as [Hv Hb]. rewrite Hv, Hb.
      right; right; left. auto.
    + do 4 right. split; [reflexivity|]. split; [reflexivity|]. cbn.
      destruct (find_by_device_info _ _ _ _) as [sysfs_path|message] eqn:Hf; cbn.
      * right. exists sysfs_path. split; [reflexivity|].
        destruct (list_devices type sysfs_path) as [|data rest] eqn:Hl.
        -- left. auto.
        -- right. exists data, rest. auto.
      * left. exists message. auto.
Qed.

Lemma given_true (x y : Z) : nonzero x || nonzero y = true -> x <> 0 \/ y <> 0.
Proof.
  unfold nonzero. destruct (Z.eqb_spec x 0), (Z.eqb_spec y 0); cbn;
    try discriminate; auto.
Qed.

Lemma given_false (x y : Z) : nonzero x || nonzero y = false -> x = 0 /\ y = 0.
Proof.
  unfold nonzero. destruct (Z.eqb_spec x 0), (Z.eqb_spec y 0); cbn;
    try discriminate; auto.
Qed.

(** X10.  Giving both [--busnum-devnum] and [--vid-pid], in either
    order, always ends in a conflict: once both callbacks have returned
    TRUE, [select_path] returns NULL with one conflict message and
    without calling a collaborator, whatever the values were. *)
Theorem both_lookups_conflict (value1 value2 : string) (g : Selection)
        (r1 r2 : CallbackReturn) (manual : option string)
        (type : QfuUdevHelperDeviceType) :
  (parse_busnum_devnum value1 g = Returned r1
   /\ parse_vid_pid value2 (globals r1) = Returned r2)
  \/ (parse_vid_pid value1 g = Returned r1
      /\ parse_busnum_devnum value2 (globals r1) = Returned r2) ->
  result r1 = true -> result r2 = true ->
  select_path manual type (globals r2)
  = (None,
     [EvPrintErr
        (if is_set manual
         then "error: cannot specify device path and vid:pid lookup" ++ nl
         else "error: cannot specify busnum:devnum and vid:pid lookups" ++ nl)%string]).
Proof.
  intros H Hr1 Hr2.
  assert (Hset : vid (globals r2) <> 0 /\ devnum (globals r2) <> 0).
  { destruct H as [[H1 H2]|[H1 H2]].
    - destruct (parse_busnum_devnum_success _ _ _ H1 Hr1) as (Hd & _ & _).
      destruct (parse_vid_pid_success _ _ _ H2 Hr2) as (Hv & _ & Hd').
      split; [exact Hv | congruence].
    - destruct (parse_vid_pid_success _ _ _ H1 Hr1) as (Hv & _ & _).
      destruct (parse_busnum_devnum_success _ _ _ H2 Hr2) as (Hd & Hv' & _).
      split; [congruence | exact Hd]. }
  destruct Hset as [Hv Hd].
  unfold select_path.
  rewrite (nonzero_either (vid (globals r2)) (pid (globals r2)) (or_introl Hv)).
  rewrite (nonzero_either (busnum (globals r2)) (devnum (globals r2)) (or_intror Hd)).
  destruct manual; reflexivity.
Qed.

(** X11.  With a manual path [select_path] never calls a collaborator;
    it returns that very path when no lookup criterion is set and NULL
    with exactly one error line as soon as one is. *)
Theorem select_path_manual (path : string) (type : QfuUdevHelperDeviceType)
        (g : Selection) :
  enumeration_of (trace (select_path (Some path) type g)) = []
  /\ (value (select_path (Some path) type g) = Some path
      <-> vid g = 0 /\ pid g = 0 /\ busnum g = 0 /\ devnum g = 0)
  /\ (value (select_path (Some path) type g) <> Some path ->
      value (select_path (Some path) type g) = None
      /\ List.length (stderr_of (trace (select_path (Some path) type g))) = 1%nat).
Proof.
  destruct (select_path_cases (Some path) type g)
    as [(_ & Hv & E)|[(_ & Hv & Hb & E)|[(Hm & _)|[(p & Hm & Hv & Hb & E)|(Hm & _)]]]];
    try discriminate Hm; rewrite E; cbn [value trace fst snd].
  - apply given_true in Hv.
    split; [reflexivity|]. split; [split; [discriminate | lia]|].
    intros _. split; reflexivity.
  - apply given_true in Hb.
    split; [reflexivity|]. split; [split; [discriminate | lia]|].
    intros _. split; reflexivity.
  - injection Hm as <-. apply given_false in Hv, Hb.
    split; [reflexivity|]. split; [split; [intros _; tauto | reflexivity]|].
    intros H. contradiction H. reflexivity.
Qed.

(** X12.  [select_path] prints at most one error line and none when it
    returns a path.  It returns NULL without any line in one case only:
    the lookup found a sysfs path, devices were listed below it, and
    [g_file_get_path] has no path for the first of them. *)
Theorem select_path_silent_failure (manual : option string)
        (type : QfuUdevHelperDeviceType) (g : Selection) :
  (List.length (stderr_of (trace (select_path manual type g))) <= 1)%nat
  /\ (value (select_path manual type g) <> None ->
      stderr_of (trace (select_path manual type g)) = [])
  /\ (value (select_path manual type g) = None
      /\ stderr_of (trace (select_path manual type g)) = []
      <-> manual = None
          /\ vid_pid_given g && busnum_devnum_given g = false
          /\ exists sysfs_path data rest,
              find_by_device_info (vid g) (pid g) (busnum g) (devnum g)
              = inl sysfs_path
              /\ list_devices type sysfs_path = data :: rest
              /\ g_file_get_path data = None).
Proof.
  destruct (select_path_cases manual type g)
    as [(Hm & Hv & E)
       |[(Hm & Hv & Hb & E)
        |[(Hm & Hv & Hb & E)
         |[(p & Hm & Hv & Hb & E)
          |(Hm & Hc & [(m & Hf & E)|(sp & Hf & [(Hl & E)|(d & rest & Hl & E)])])]]]];
    rewrite E; cbn [value trace fst snd stderr_of flat_map app List.length].
  - split; [lia|]. split; [intros H; contradiction H; reflexivity|].
    split; [intros [_ H]; discriminate H|].
    intros (-> & _). discriminate Hm.
  - split; [lia|]. split; [intros H; contradiction H; reflexivity|].
    split; [intros [_ H]; discriminate H|].
    intros (-> & _). discriminate Hm.
  - split; [lia|]. split; [intros H; contradiction H; reflexivity|].
    split; [intros [_ H]; discriminate H|].
    intros (_ & Hc & _). rewrite Hv, Hb in Hc. discriminate Hc.
  - split; [lia|]. split; [reflexivity|].
    split; [intros [H _]; discriminate H|].
    intros (-> & _). discriminate Hm.
  - split; [lia|]. split; [intros H; contradiction H; reflexivity|].
    split; [intros [_ H]; discriminate H|].
    intros (_ & _ & sp & d & rest & Hf' & _). congruence.
  - split; [lia|]. split; [intros H; contradiction H; reflexivity|].
    split; [intros [_ H]; discriminate H|].
    intros (_ & _ & sp' & d & rest & Hf' & Hl' & _). congruence.
  - split; [lia|]. split; [reflexivity|].
    split.
    + intros [Hn _]. split; [exact Hm|]. split; [exact Hc|].
      exists sp, d, rest. auto.
    + intros (_ & _ & sp' & d' & rest' & Hf' & Hl' & Hp).
      assert (sp' = sp) by congruence. subst sp'.
      assert (d' = d) by congruence. subst d'.
      split; [exact Hp | reflexivity].
Qed.

(** X13.  [select_path] calls the lookup at most once, with the four
    selection variables as they are, and lists devices at most once,
    after the lookup, for the requested type and the very sysfs path the
    lookup returned. *)
Theorem select_path_enumeration (manual : option string)
        (type : QfuUdevHelperDeviceType) (g : Selection) :
  enumeration_of (trace (select_path manual type g)) = []
  \/ (enumeration_of (trace (select_path manual type g))
      = [EvFindByDeviceInfo (vid g) (pid g) (busnum g) (devnum g)]
      /\ exists message,
          find_by_device_info (vid g) (pid g) (busnum g) (devnum g)
          = inr message)
  \/ (exists sysfs_path,
         find_by_device_info (vid g) (pid g) (busnum g) (devnum g)
         = inl sysfs_path
         /\ enumeration_of (trace (select_path manual type g))
            = [EvFindByDeviceInfo (vid g) (pid g) (busnum g) (devnum g);
               EvListDevices type sysfs_path]).
Proof.
  destruct (select_path_cases manual type g)
    as [(Hm & Hv & E)
       |[(Hm & Hv & Hb & E)
        |[(Hm & Hv & Hb & E)
         |[(p & Hm & Hv & Hb & E)
          |(Hm & Hc & [(m & Hf & E)|(sp & Hf & [(Hl & E)|(d & rest & Hl & E)])])]]]];
    rewrite E; cbn [trace snd].
  - left; reflexivity.
  - left; reflexivity.
  - left; reflexivity.
  - left; reflexivity.
  - right; left. split; [reflexivity | eauto].
  - right; right. exists sp. split; [exact Hf | reflexivity].
  - right; right. exists sp. split; [exact Hf | reflexivity].
Qed.

End ResolutionProperties.

Lemma both_lookups_conflict_witness :
  select_path (env := Sample.environment) None
              QFU_UDEV_HELPER_DEVICE_TYPE_CDC_WDM (mkSelection 1 2 4505 0)
  = (None,
     [EvPrintErr ("error: cannot specify busnum:devnum and vid:pid lookups" ++ nl)%string]).
Proof.
  apply (both_lookups_conflict (env := Sample.environment) "1:2" "1199"
           initial_selection
           (mkReturn true None (mkSelection 1 2 0 0))
           (mkReturn true None (mkSelection 1 2 4505 0))
           None QFU_UDEV_HELPER_DEVICE_TYPE_CDC_WDM);
    [left; split; reflexivity | reflexivity | reflexivity].
Defined.

Lemma select_path_manual_witness :
  value (select_path (env := Sample.environment) (Some "/dev/cdc-wdm0")
                     QFU_UDEV_HELPER_DEVICE_TYPE_CDC_WDM (mkSelection 0 0 4505 0))
  = None
  /\ List.length
       (stderr_of
          (trace (select_path (env := Sample.environment) (Some "/dev/cdc-wdm0")
                              QFU_UDEV_HELPER_DEVICE_TYPE_CDC_WDM
                              (mkSelection 0 0 4505 0))))
     = 1%nat.
Proof.
  apply (proj2 (proj2 (select_path_manual (env := Sample.environment)
                         "/dev/cdc-wdm0" QFU_UDEV_HELPER_DEVICE_TYPE_CDC_WDM
                         (mkSelection 0 0 4505 0)))).
  discriminate.
Defined.

Lemma select_path_silent_failure_witness :
  select_path (env := Pathless.environment) None
              QFU_UDEV_HELPER_DEVICE_TYPE_CDC_WDM (mkSelection 0 0 4505 0)
  = (None,
     [EvFindByDeviceInfo 4505 0 0 0;
      EvListDevices QFU_UDEV_HELPER_DEVICE_TYPE_CDC_WDM "/sys/bus/usb/devices/1-2"])
  /\ stderr_of
       (trace (select_path (env := Sample.environment) None
                           QFU_UDEV_HELPER_DEVICE_TYPE_CDC_WDM
                           (mkSelection 0 0 4505 0)))
     = [].
Proof.
  split; [reflexivity|].
  apply (proj1 (proj2 (select_path_silent_failure (env := Sample.environment)
                         None QFU_UDEV_HELPER_DEVICE_TYPE_CDC_WDM
                         (mkSelection 0 0 4505 0)))).
  discriminate.
Defined.

Section DispatchProperties.

Context {env : Environment}.

(** Every way [main] can end. *)
Lemma main_cases (parse_error : option string) (g : Selection) (o : Options) :
  (exists message,
      main parse_error g o = (Returned EXIT_FAILURE, [EvPrintErr message]))
  \/ (exists text,
         parse_error = None /\ (version_flag o = true \/ help_flag o = true)
         /\ main parse_error g o = (Returned EXIT_SUCCESS, [EvPrint text]))
  \/ (exists message,
         main parse_error g o
         = (Returned EXIT_FAILURE, log_setup o ++ [EvPrintErr message]))
  \/ (exists manual type t,
         select_path manual type g = (None, t)
         /\ main parse_error g o = (Returned EXIT_FAILURE, log_setup o ++ t))
  \/ (exists manual type path t line e b,
         select_path manual type g = (Some path, t)
         /\ is_operation e = true /\ operation_result e = Some b
         /\ main parse_error g o
            = (Returned (exit_status b), log_setup o ++ t ++ [EvDebug line; e]))
  \/ (exists e b,
         is_operation e = true /\ operation_result e = Some b
         /\ main parse_error g o = (Returned (exit_status b), log_setup o ++ [e])).
Proof.
  unfold main, log_setup, print_version, print_help.
  destruct parse_error as [message|]; [left; eexists; reflexivity|].
  destruct (version_flag o) eqn:Hv;
    [right; left; eexists; split; [reflexivity|]; split; [left|]; reflexivity|].
  destruct (help_flag o) eqn:Hh;
    [right; left; eexists; split; [reflexivity|]; split; [right|]; reflexivity|].
  destruct (action_verify_flag o), (action_update_flag o),
    (action_update_qdl_flag o); cbn [Z.b2z Z.add to_guint];
    match goal with
    | |- context [if ?n =? 0 then _ else _] =>
        let c := eval vm_compute in (n =? 0) in change (n =? 0) with c
    end; cbv iota;
    try match goal with
    | |- context [if 1 <? ?n then _ else _] =>
        let c := eval vm_compute in (1 <? n) in change (1 <? n) with c
    end; cbv iota.
  all: try (right; right; left; destruct (verbose_flag o); eexists; reflexivity).
  all: destruct (image_strv o) as [images|];
    [|right; right; left; destruct (verbose_flag o); eexists; reflexivity].
  - do 5 right. destruct (verbose_flag o); do 2 eexists;
      (split; [|split]); [| |reflexivity| | |reflexivity]; reflexivity.
  - destruct (select_path (device_str o) QFU_UDEV_HELPER_DEVICE_TYPE_CDC_WDM g)
      as [[path|] t] eqn:Hs.
    + do 4 right; left. exists (device_str o), QFU_UDEV_HELPER_DEVICE_TYPE_CDC_WDM, path, t.
      destruct (verbose_flag o); do 3 eexists;
        (split; [exact Hs|]); (split; [|split]);
        [| |cbn; reflexivity| | |cbn; reflexivity];
        reflexivity.
    + do 3 right; left. exists (device_str o), QFU_UDEV_HELPER_DEVICE_TYPE_CDC_WDM, t.
      split; [exact Hs|].
      destruct (verbose_flag o); cbn; rewrite ?app_nil_r; reflexivity.
  - destruct (select_path (serial_str o) QFU_UDEV_HELPER_DEVICE_TYPE_TTY g)
      as [[path|] t] eqn:Hs.
    + do 4 right; left. exists (serial_str o), QFU_UDEV_HELPER_DEVICE_TYPE_TTY, path, t.
      destruct (verbose_flag o); do 3 eexists;
        (split; [exact Hs|]); (split; [|split]);
        [| |cbn; reflexivity| | |cbn; reflexivity];
        reflexivity.
    + do 3 right; left. exists (serial_str o), QFU_UDEV_HELPER_DEVICE_TYPE_TTY, t.
      split; [exact Hs|].
      destruct (verbose_flag o); cbn; rewrite ?app_nil_r; reflexivity.
Qed.

Lemma stderr_of_app (t1 t2 : list Event) :
  stderr_of (t1 ++ t2) = stderr_of t1 ++ stderr_of t2.
Proof. apply flat_map_app. Qed.

Lemma stderr_of_log_setup (o : Options) : stderr_of (log_setup o) = [].
Proof. unfold log_setup. destruct (verbose_flag o); reflexivity. Qed.

Lemma log_setup_no_operation (o : Options) : operations_of (log_setup o) = [].
Proof. unfold log_setup. destruct (verbose_flag o); reflexivity. Qed.

Lemma operations_of_append (t1 t2 : list Event) :
  operations_of (t1 ++ t2) = operations_of t1 ++ operations_of t2.
Proof. apply filter_app. Qed.

(** What [select_path] leaves on standard error and among the
    operations, by its result. *)
Lemma select_path_result_trace (manual : option string)
      (type : QfuUdevHelperDeviceType) (g : Selection)
      (path : option string) (t : list Event) :
  select_path manual type g = (path, t) ->
  operations_of t = []
  /\ (List.length (stderr_of t) <= 1)%nat
  /\ (path <> None -> stderr_of t = [])
  /\ ((forall f, g_file_get_path f <> None) -> path = None ->
      List.length (stderr_of t) = 1%nat).
Proof.
  intros Hs.
  destruct (select_path_cases manual type g)
    as [(Hm & Hv & E)
       |[(Hm & Hv & Hb & E)
        |[(Hm & Hv & Hb & E)
         |[(p & Hm & Hv & Hb & E)
          |(Hm & Hc & [(m & Hf & E)|(sp & Hf & [(Hl & E)|(d & rest & Hl & E)])])]]]];
    rewrite E in Hs; injection Hs as <- <-; cbn;
    repeat split; try lia; try reflexivity;
    try (intros H; contradiction H; reflexivity);
    try discriminate.
  intros Hp Hn. contradiction (Hp d).
Qed.

(** X14.  Once [g_option_context_parse] has returned, with an error or
    not, [main] ends with EXIT_SUCCESS or EXIT_FAILURE whatever the
    option variables hold: the [g_assert_not_reached] after the three
    action branches is never met.  (Before that point a run can still die
    in a callback, on the [g_assert] for an empty value.) *)
Theorem main_assert_not_reached_unreachable (parse_error : option string) (g : Selection)
        (o : Options) :
  value (main parse_error g o) = Returned EXIT_SUCCESS
  \/ value (main parse_error g o) = Returned EXIT_FAILURE.
Proof.
  destruct (main_cases parse_error g o)
    as [[m E]|[(x & _ & _ & E)|[[m E]|[(ma & ty & t & _ & E)
       |[(ma & ty & p & t & l & e & b & _ & _ & _ & E)|(e & b & _ & _ & E)]]]]];
    rewrite E; cbn [value fst]; try destruct b; auto.
Qed.

(** X15.  A run prints at most one error line and runs at most one
    operation, never both; the operation, when there is one, is the last
    thing the run does. *)
Theorem main_one_error_or_one_operation (parse_error : option string)
        (g : Selection) (o : Options) :
  (List.length (stderr_of (trace (main parse_error g o))) <= 1)%nat
  /\ (List.length (operations_of (trace (main parse_error g o))) <= 1)%nat
  /\ (stderr_of (trace (main parse_error g o)) = []
      \/ operations_of (trace (main parse_error g o)) = [])
  /\ (forall e, In e (operations_of (trace (main parse_error g o))) ->
                exists t, trace (main parse_error g o) = t ++ [e]).
Proof.
  destruct (main_cases parse_error g o)
    as [[m E]|[(x & _ & _ & E)|[[m E]|[(ma & ty & t & Hs & E)
       |[(ma & ty & p & t & l & e & b & Hs & He & _ & E)|(e & b & He & _ & E)]]]]];
    rewrite E; cbn [trace snd].
  - cbn. repeat split; auto. intros e [].
  - cbn. repeat split; auto. intros e [].
  - rewrite stderr_of_app, operations_of_append, stderr_of_log_setup,
      log_setup_no_operation. cbn. repeat split; auto. intros e [].
  - destruct (select_path_result_trace _ _ _ _ _ Hs) as (Ho & Hl & _).
    rewrite stderr_of_app, operations_of_append, stderr_of_log_setup,
      log_setup_no_operation, Ho. cbn. repeat split; auto. intros e [].
  - destruct (select_path_result_trace _ _ _ _ _ Hs) as (Ho & _ & Hn & _).
    rewrite !stderr_of_app, !operations_of_append, stderr_of_log_setup,
      log_setup_no_operation, Ho, Hn by discriminate.
    cbn [app operations_of filter is_operation stderr_of flat_map List.length].
    rewrite He. cbn [List.length].
    assert (Hse : stderr_of [e] = []) by (destruct e; try discriminate He; reflexivity).
    cbn [stderr_of flat_map] in Hse. rewrite Hse.
    repeat split; auto.
    intros e' [<-|[]]. exists (log_setup o ++ t ++ [EvDebug l]).
    rewrite <- !app_assoc. reflexivity.
  - rewrite stderr_of_app, operations_of_append, stderr_of_log_setup,
      log_setup_no_operation.
    cbn [app operations_of filter is_operation stderr_of flat_map List.length].
    rewrite He. cbn [List.length].
    assert (Hse : stderr_of [e] = []) by (destruct e; try discriminate He; reflexivity).
    cbn [stderr_of flat_map] in Hse. rewrite Hse.
    repeat split; auto.
    intros e' [<-|[]]. exists (log_setup o). reflexivity.
Qed.

(** X16.  A run exits with EXIT_SUCCESS in two cases only: the options
    parsed and [--version] or [--help] was given; or exactly one
    operation was run and it reported success. *)
Theorem main_success (parse_error : option string) (g : Selection)
        (o : Options) :
  value (main parse_error g o) = Returned EXIT_SUCCESS
  <-> (parse_error = None /\ (version_flag o = true \/ help_flag o = true))
      \/ (exists e,
             operations_of (trace (main parse_error g o)) = [e]
             /\ operation_result e = Some true).
Proof.
  destruct (main_cases parse_error g o)
    as [[m E]|[(x & Hp & Hv & E)|[[m E]|[(ma & ty & t & Hs & E)
       |[(ma & ty & p & t & l & e & b & Hs & He & Hb & E)|(e & b & He & Hb & E)]]]]];
    rewrite E; cbn [value trace fst snd].
  - split; [discriminate|].
    intros [[Hp Hv]|(e & He & _)]; [|discriminate He].
    exfalso. subst parse_error. unfold main in E.
    destruct Hv as [Hv|Hv].
    + rewrite Hv in E. discriminate E.
    + rewrite Hv in E. destruct (version_flag o); discriminate E.
  - split; auto.
  - split; [discriminate|].
    intros [[Hp Hv]|(e & He & _)].
    + exfalso. subst parse_error. unfold main in E.
      destruct Hv as [Hv|Hv].
      * rewrite Hv in E. discriminate E.
      * rewrite Hv in E. destruct (version_flag o); discriminate E.
    + rewrite operations_of_append, log_setup_no_operation in He. discriminate He.
  - destruct (select_path_result_trace _ _ _ _ _ Hs) as (Ho & _).
    split; [discriminate|].
    intros [[Hp Hv]|(e & He & _)].
    + exfalso. subst parse_error. unfold main in E.
      destruct Hv as [Hv|Hv].
      * rewrite Hv in E. discriminate E.
      * rewrite Hv in E. destruct (version_flag o); discriminate E.
    + rewrite operations_of_append, log_setup_no_operation, Ho in He.
      discriminate He.
  - destruct (select_path_result_trace _ _ _ _ _ Hs) as (Ho & _).
    assert (Hops : operations_of (log_setup o ++ t ++ [EvDebug l; e]) = [e]).
    { rewrite !operations_of_append, log_setup_no_operation, Ho.
      cbn. rewrite He. reflexivity. }
    rewrite Hops. split.
    + intros Hx. right. exists e. split; [reflexivity|].
      destruct b; [exact Hb | discriminate Hx].
    + intros [[Hp Hv]|(e' & He' & Hr)].
      * exfalso. subst parse_error. unfold main in E.
        destruct Hv as [Hv|Hv].
        -- rewrite Hv in E. discriminate E.
        -- rewrite Hv in E. destruct (version_flag o); discriminate E.
      * injection He' as <-. rewrite Hb in Hr. injection Hr as ->. reflexivity.
  - assert (Hops : operations_of (log_setup o ++ [e]) = [e]).
    { rewrite !operations_of_append, log_setup_no_operation.
      cbn. rewrite He. reflexivity. }
    rewrite Hops. split.
    + intros Hx. right. exists e. split; [reflexivity|].
      destruct b; [exact Hb | discriminate Hx].
    + intros [[Hp Hv]|(e' & He' & Hr)].
      * exfalso. subst parse_error. unfold main in E.
        destruct Hv as [Hv|Hv].
        -- rewrite Hv in E. discriminate E.
        -- rewrite Hv in E. destruct (version_flag o); discriminate E.
      * injection He' as <-. rewrite Hb in Hr. injection Hr as ->. reflexivity.
Qed.

(** X17.  Where every listed device has a path, a failing run explains
    itself: either it printed exactly one error line and ran no
    operation, or it printed no error line and the one operation it ran
    reported failure. *)
Theorem main_failure_explained (parse_error : option string) (g : Selection)
        (o : Options) :
  (forall f, g_file_get_path f <> None) ->
  value (main parse_error g o) = Returned EXIT_FAILURE ->
  (List.length (stderr_of (trace (main parse_error g o))) = 1%nat
   /\ operations_of (trace (main parse_error g o)) = [])
  \/ (stderr_of (trace (main parse_error g o)) = []
      /\ exists e,
          operations_of (trace (main parse_error g o)) = [e]
          /\ operation_result e = Some false).
Proof.
  intros Hpaths.
  destruct (main_cases parse_error g o)
    as [[m E]|[(x & Hp & Hv & E)|[[m E]|[(ma & ty & t & Hs & E)
       |[(ma & ty & p & t & l & e & b & Hs & He & Hb & E)|(e & b & He & Hb & E)]]]]];
    rewrite E; cbn [value trace fst snd]; intros Hx.
  - left. split; reflexivity.
  - discriminate Hx.
  - left. rewrite stderr_of_app, operations_of_append, stderr_of_log_setup,
      log_setup_no_operation. split; reflexivity.
  - destruct (select_path_result_trace _ _ _ _ _ Hs) as (Ho & _ & _ & Hone).
    left. rewrite stderr_of_app, operations_of_append, stderr_of_log_setup,
      log_setup_no_operation, Ho. cbn [app]. split; [|reflexivity].
    apply Hone; [exact Hpaths | reflexivity].
  - destruct (select_path_result_trace _ _ _ _ _ Hs) as (Ho & _ & Hn & _).
    right.
    assert (Hse : stderr_of [e] = []) by (destruct e; try discriminate He; reflexivity).
    split.
    + rewrite !stderr_of_app, stderr_of_log_setup, Hn by discriminate.
      change [EvDebug l; e] with ([EvDebug l] ++ [e]).
      rewrite stderr_of_app, Hse. reflexivity.
    + exists e. split.
      * rewrite !operations_of_append, log_setup_no_operation, Ho.
        cbn. rewrite He. reflexivity.
      * destruct b; [discriminate Hx | exact Hb].
  - right.
    assert (Hse : stderr_of [e] = []) by (destruct e; try discriminate He; reflexivity).
    split.
    + rewrite !stderr_of_app, stderr_of_log_setup, Hse. reflexivity.
    + exists e. split.
      * rewrite !operations_of_append, log_setup_no_operation.
        cbn. rewrite He. reflexivity.
      * destruct b; [discriminate Hx | exact Hb].
Qed.












(** X19.  Each action reads only its own path option: a run without
    [--update] is the same whatever [--device] says -- an UpdateQdl run
    given [--device] and a vid:pid looks the device up instead of
    reporting a conflict -- and a run with [--update] is the same
    whatever [--serial] says. *)
Theorem main_ignores_other_path (parse_error : option string) (g : Selection)
        (o : Options) (p : option string) :
  (action_update_flag o = false ->
   main parse_error g (set_device_str p o) = main parse_error g o)
  /\ (action_update_flag o = true ->
      main parse_error g (set_serial_str p o) = main parse_error g o).
Proof.
  destruct o as [upd dev fw cfg car prx mbim qdl ser ver img vb sl vs hl].
  cbn [action_update_flag].
  split; intros ->; reflexivity.
Qed.

End DispatchProperties.

(** ** The log handler *)

(** X20.  [log_handler] prints nothing under [--silent].  Otherwise a
    message whose level is exactly warning, critical, fatal or error goes
    to standard error whether [--verbose] is given or not, and any other
    message goes to standard output and only under [--verbose].  What is
    printed is one line: the time in brackets, the level tag, the
    message. *)
Theorem log_handler_output (o : Options) (time_str : string)
        (log_domain : option string) (log_level : Z) (message : string) :
  (stderr_of (trace (log_handler o time_str log_domain log_level message)) <> []
   <-> silent_flag o = false /\ is_error_level log_level = true)
  /\ (stdout_of (trace (log_handler o time_str log_domain log_level message)) <> []
      <-> silent_flag o = false /\ verbose_flag o = true
          /\ is_error_level log_level = false)
  /\ (trace (log_handler o time_str log_domain log_level message) = []
      \/ exists tag,
          In tag ["-Warning **"; "-Error **"; "[Debug]"; ""]
          /\ trace (log_handler o time_str log_domain log_level message)
             = [(if is_error_level log_level then EvPrintErr else EvPrint)
                  ("[" ++ time_str ++ "] " ++ tag ++ " " ++ message ++ nl)%string]).
Proof.
  unfold log_handler, is_error_level, existsb,
    G_LOG_LEVEL_WARNING, G_LOG_LEVEL_CRITICAL, G_LOG_FLAG_FATAL,
    G_LOG_LEVEL_ERROR, G_LOG_LEVEL_DEBUG.
  destruct (silent_flag o).
  - cbn. split; [|split].
    + split; [intros H; contradiction H; reflexivity | intros [H _]; discriminate H].
    + split; [intros H; contradiction H; reflexivity | intros [H _]; discriminate H].
    + left; reflexivity.
  - destruct (verbose_flag o), (log_level =? 16), (log_level =? 8),
      (log_level =? 2), (log_level =? 4), (log_level =? 128);
      cbv beta iota zeta;
      cbn [negb andb orb trace snd emit ret stderr_of stdout_of flat_map app].
    all: split; [split; [intros H; try (contradiction H; reflexivity); auto
                        |intros [_ H]; try discriminate H; discriminate]|].
    all: split; [split; [intros H; try (contradiction H; reflexivity); auto
                        |intros (_ & H1 & H2); try discriminate H1;
                         try discriminate H2; discriminate]|].
    all: try (left; reflexivity).
    all: right; eexists; split; [|reflexivity]; cbn; auto.
Qed.

(** ** The further properties on the sample environments *)

Lemma parse_aborts_only_on_empty_witness :
  parse_busnum_devnum "" initial_selection = Aborted
  /\ parse_vid_pid "" initial_selection = Aborted.
Proof.
  split.
  - apply (proj2 (proj1 (parse_aborts_only_on_empty "" initial_selection))).
    reflexivity.
  - apply (proj2 (proj2 (parse_aborts_only_on_empty "" initial_selection))).
    reflexivity.
Defined.

Lemma main_one_error_or_one_operation_witness :
  exists t,
    trace (Sample.run None (mkSelection 0 0 4505 36977)
             (mkOptions true None None None None false false false None false
                        (Some ["fw.cwe"]) false false false false))
    = t ++ [EvUpdateRun ["fw.cwe"] "/dev/cdc-wdm0" None None None false false].
Proof.
  apply (proj2 (proj2 (proj2 (main_one_error_or_one_operation
                                (env := Sample.environment) None
                                (mkSelection 0 0 4505 36977)
                                (mkOptions true None None None None false false
                                           false None false (Some ["fw.cwe"])
                                           false false false false))))).
  left. reflexivity.
Defined.

Lemma main_success_witness :
  value (Sample.run None initial_selection
           (mkOptions false None None None None false false false None true
                      (Some ["fw.cwe"]) false false false false))
  = Returned EXIT_SUCCESS.
Proof.
  apply (proj2 (main_success (env := Sample.environment) None initial_selection
                  (mkOptions false None None None None false false false None
                             true (Some ["fw.cwe"]) false false false false))).
  right. exists (EvVerifyRun ["fw.cwe"]). split; reflexivity.
Defined.

Lemma main_failure_explained_witness :
  (List.length
     (stderr_of (trace (Sample.run None initial_selection initial_options)))
   = 1%nat
   /\ operations_of (trace (Sample.run None initial_selection initial_options))
      = [])
  \/ (stderr_of (trace (Sample.run None initial_selection initial_options)) = []
      /\ exists e,
          operations_of (trace (Sample.run None initial_selection initial_options))
          = [e]
          /\ operation_result (env := Sample.environment) e = Some false).
Proof.
  apply (main_failure_explained (env := Sample.environment) None
           initial_selection initial_options).
  - intros f. discriminate.
  - reflexivity.
Defined.

(** The run [--update-qdl --device /dev/cdc-wdm0 --vid-pid 1199 fw.cwe]. *)
Lemma main_ignores_other_path_witness :
  Sample.run None (mkSelection 0 0 4505 0)
    (mkOptions false (Some "/dev/cdc-wdm0") None None None false false
               true None false (Some ["fw.cwe"]) false false false false)
  = Sample.run None (mkSelection 0 0 4505 0)
      (mkOptions false None None None None false false
                 true None false (Some ["fw.cwe"]) false false false false).
Proof.
  apply (proj1 (main_ignores_other_path (env := Sample.environment) None
                  (mkSelection 0 0 4505 0)
                  (mkOptions false None None None None false false
                             true None false (Some ["fw.cwe"])
                             false false false false)
                  (Some "/dev/cdc-wdm0"))).
  reflexivity.
Defined.

Lemma log_handler_output_witness :
  stderr_of (trace (log_handler initial_options "30 Oct 2026, 12:00:00" None
                                G_LOG_LEVEL_WARNING "device busy"))
  <> []
  /\ ~ stdout_of (trace (log_handler initial_options "30 Oct 2026, 12:00:00"
                                     (Some "Qmi") G_LOG_LEVEL_DEBUG "opening"))
       <> [].
Proof.
  split.
  - apply (proj2 (proj1 (log_handler_output initial_options
                           "30 Oct 2026, 12:00:00" None G_LOG_LEVEL_WARNING
                           "device busy"))).
    split; reflexivity.
  - intros H.
    apply (proj1 (proj1 (proj2 (log_handler_output initial_options
                           "30 Oct 2026, 12:00:00" (Some "Qmi")
                           G_LOG_LEVEL_DEBUG "opening")))) in H.
    destruct H as (_ & H & _). discriminate H.
Defined.

Section ValidationBeforeLookup.

Context {env : Environment}.

Lemma select_path_manual_no_enumeration (path : string)
      (type : QfuUdevHelperDeviceType) (g : Selection) :
  enumeration_of (trace (select_path (Some path) type g)) = [].
Proof.
  destruct (select_path_cases (Some path) type g)
    as [(_ & _ & E)|[(_ & _ & _ & E)|[(Hm & _)|[(p & _ & _ & _ & E)|(Hm & _)]]]];
    try discriminate Hm; rewrite E; reflexivity.
Qed.

Lemma enumeration_of_append (t1 t2 : list Event) :
  enumeration_of (t1 ++ t2) = enumeration_of t1 ++ enumeration_of t2.
Proof. apply filter_app. Qed.

(** X21.  One lookup option given alone always reaches the lookup, the
    other pair being passed as 0: after [parse_vid_pid] has returned TRUE
    on unset variables, [select_path] without a manual path first calls
    the lookup with the vendor, the product, 0 and 0; after
    [parse_busnum_devnum], with 0, 0, the bus and the device. *)
Theorem single_lookup_reaches_enumeration (value : string)
        (r : CallbackReturn) (type : QfuUdevHelperDeviceType) :
  (parse_vid_pid value initial_selection = Returned r -> result r = true ->
   vid (globals r) <> 0
   /\ exists rest,
       trace (select_path None type (globals r))
       = EvFindByDeviceInfo (vid (globals r)) (pid (globals r)) 0 0 :: rest)
  /\ (parse_busnum_devnum value initial_selection = Returned r ->
      result r = true ->
      devnum (globals r) <> 0
      /\ exists rest,
          trace (select_path None type (globals r))
          = EvFindByDeviceInfo 0 0 (busnum (globals r)) (devnum (globals r))
            :: rest).
Proof.
  split; intros H Hr.
  - destruct (parse_vid_pid_success _ _ _ H Hr) as (Hv & Hb & Hd).
    cbn in Hb, Hd. split; [exact Hv|].
    destruct (select_path_cases None type (globals r))
      as [(Hm & _)
         |[(Hm & _)
          |[(_ & _ & Hbd & _)
           |[(p & Hm & _)
            |(_ & _ & [(m & _ & E)|(sp & _ & [(_ & E)|(d & rest & _ & E)])])]]]];
      try discriminate Hm.
    + unfold busnum_devnum_given in Hbd. rewrite Hb, Hd in Hbd. discriminate Hbd.
    + rewrite E, Hb, Hd. eexists. reflexivity.
    + rewrite E, Hb, Hd. eexists. reflexivity.
    + rewrite E, Hb, Hd. eexists. reflexivity.
  - destruct (parse_busnum_devnum_success _ _ _ H Hr) as (Hd & Hv & Hp).
    cbn in Hv, Hp. split; [exact Hd|].
    destruct (select_path_cases None type (globals r))
      as [(Hm & _)
         |[(Hm & _)
          |[(_ & Hvp & _)
           |[(p & Hm & _)
            |(_ & _ & [(m & _ & E)|(sp & _ & [(_ & E)|(d & rest & _ & E)])])]]]];
      try discriminate Hm.
    + unfold vid_pid_given in Hvp. rewrite Hv, Hp in Hvp. discriminate Hvp.
    + rewrite E, Hv, Hp. eexists. reflexivity.
    + rewrite E, Hv, Hp. eexists. reflexivity.
    + rewrite E, Hv, Hp. eexists. reflexivity.
Qed.

(** X22.  Validation comes before any lookup: a run calls the
    enumeration collaborator only if its options parsed, neither
    [--version] nor [--help] was given, exactly one action flag is set and
    it is not [--verify], images are given, and the path option of the
    action ([--device] for Update, [--serial] for UpdateQdl) is absent. *)
Theorem main_enumerates_only_when_valid (parse_error : option string)
        (g : Selection) (o : Options) :
  enumeration_of (trace (main parse_error g o)) <> [] ->
  parse_error = None
  /\ version_flag o = false /\ help_flag o = false
  /\ action_count o = 1 /\ action_verify_flag o = false
  /\ image_strv o <> None
  /\ (if action_update_flag o then device_str o else serial_str o) = None.
Proof.
  destruct o as [upd dev fw cfg car prx mbim qdl ser ver img vb sl vs hl].
  unfold main, action_count.
  cbn [version_flag help_flag verbose_flag action_verify_flag
       action_update_flag action_update_qdl_flag image_strv device_str
       serial_str firmware_version_str config_version_str carrier_str
       device_open_proxy_flag device_open_mbim_flag].
  destruct parse_error; [intros H; contradiction H; reflexivity|].
  destruct vs; [intros H; contradiction H; reflexivity|].
  destruct hl; [intros H; contradiction H; reflexivity|].
  destruct ver, upd, qdl; cbn [Z.b2z Z.add to_guint];
    try solve [destruct vb; intros H; contradiction H; reflexivity].
  all: destruct img as [images|];
    [|destruct vb; intros H; contradiction H; reflexivity].
  - destruct vb; intros H; contradiction H; reflexivity.
  - destruct dev as [path|].
    + pose proof (select_path_manual_no_enumeration path
                    QFU_UDEV_HELPER_DEVICE_TYPE_CDC_WDM g) as Hn.
      destruct (select_path (Some path) QFU_UDEV_HELPER_DEVICE_TYPE_CDC_WDM g)
        as [[p|] t]; cbn [trace snd] in Hn;
        destruct vb; cbn; rewrite ?app_nil_r, ?enumeration_of_append, ?Hn;
        intros H; contradiction H; reflexivity.
    + intros _. repeat split; discriminate.
  - destruct ser as [path|].
    + pose proof (select_path_manual_no_enumeration path
                    QFU_UDEV_HELPER_DEVICE_TYPE_TTY g) as Hn.
      destruct (select_path (Some path) QFU_UDEV_HELPER_DEVICE_TYPE_TTY g)
        as [[p|] t]; cbn [trace snd] in Hn;
        destruct vb; cbn; rewrite ?app_nil_r, ?enumeration_of_append, ?Hn;
        intros H; contradiction H; reflexivity.
    + intros _. repeat split; discriminate.
Qed.

End ValidationBeforeLookup.

Lemma single_lookup_reaches_enumeration_witness :
  vid (mkSelection 0 0 4505 36977) <> 0
  /\ exists rest,
      trace (select_path (env := Sample.environment) None
                         QFU_UDEV_HELPER_DEVICE_TYPE_CDC_WDM
                         (mkSelection 0 0 4505 36977))
      = EvFindByDeviceInfo 4505 36977 0 0 :: rest.
Proof.
  apply (proj1 (single_lookup_reaches_enumeration (env := Sample.environment)
                  "1199:9071"
                  (mkReturn true None (mkSelection 0 0 4505 36977))
                  QFU_UDEV_HELPER_DEVICE_TYPE_CDC_WDM));
    reflexivity.
Defined.

Lemma main_enumerates_only_when_valid_witness :
  action_count (mkOptions true None None None None false false false None
                          false (Some ["fw.cwe"]) false false false false) = 1
  /\ device_str (mkOptions true None None None None false false false None
                           false (Some ["fw.cwe"]) false false false false)
     = None.
Proof.
  destruct (main_enumerates_only_when_valid (env := Sample.environment) None
              (mkSelection 0 0 4505 36977)
              (mkOptions true None None None None false false false None
                         false (Some ["fw.cwe"]) false false false false))
    as (_ & _ & _ & Hc & _ & _ & Hd).
  - cbn. discriminate.
  - split; [exact Hc | exact Hd].
Defined.

(** C2, as stated, fails: the run
    [--update-qdl --device /dev/cdc-wdm0 --vid-pid 1199 fw.cwe] is given a
    manual device path and a vid:pid, yet ignores [--device], calls the
    enumeration collaborator and reports no conflict; and the run
    [--verify --device /dev/cdc-wdm0 --vid-pid 1199 fw.cwe] resolves
    nothing, prints no error and succeeds. *)
Lemma manual_path_with_vid_pid_counterexample :
  Sample.run None (mkSelection 0 0 4505 0)
    (mkOptions false (Some "/dev/cdc-wdm0") None None None false false
               true None false (Some ["fw.cwe"]) false false false false)
  = (Returned EXIT_FAILURE,
     [EvLogSetHandler None; EvLogSetHandler (Some "Qmi");
      EvFindByDeviceInfo 4505 0 0 0;
      EvListDevices QFU_UDEV_HELPER_DEVICE_TYPE_TTY "/sys/bus/usb/devices/1-2";
      EvPrintErr ("error: no devices found in sysfs path: /sys/bus/usb/devices/1-2"
                  ++ nl)%string])
  /\ Sample.run None (mkSelection 0 0 4505 0)
       (mkOptions false (Some "/dev/cdc-wdm0") None None None false false
                  false None true (Some ["fw.cwe"]) false false false false)
     = (Returned EXIT_SUCCESS,
        [EvLogSetHandler None; EvLogSetHandler (Some "Qmi");
         EvVerifyRun ["fw.cwe"]]).
Proof. split; reflexivity. Qed.

